(** * chainsafe_ssz_decoder.js: framing, schema selection, report and
      next-sync-committee check of a beacon-chain Light Client Update.

    The JavaScript functions are embedded as computations of a small
    state-and-exception monad.  The state holds the memory behind the Node
    [Buffer] views and the console; an exception is a thrown JS error.  The
    [@lodestar/types] and [@chainsafe/ssz] packages are not part of the
    repository: their type objects are taken as parameters. *)

From Stdlib Require Import ZArith NArith List String Ascii Lia DecimalString Bool.
From Stdlib.Strings Require Import Byte.
Import ListNotations.
Local Open Scope string_scope.
Local Open Scope Z_scope.

(** ** JavaScript runtime: errors, completions, the world *)

(** A thrown error object: [error.name] and [error.message].  The values
    thrown here are error objects; a library that throws anything else
    ([null], a string) is not covered. *)
Record JsError : Type := mkError { name : string; message : string }.

Definition Error (msg : string) : JsError := mkError "Error" msg.
Definition TypeError (msg : string) : JsError := mkError "TypeError" msg.
Definition RangeError (msg : string) : JsError := mkError "RangeError" msg.

(** How a call ends: it returns a value or it throws. *)
Inductive Completion (A : Type) : Type :=
| Return (a : A)
| Throw (e : JsError).
Arguments Return {A} a.
Arguments Throw {A} e.

(** One line written by [console.log] (stdout) or [console.error] (stderr). *)
Inductive Output : Type :=
| stdout (line : string)
| stderr (line : string).

(** The world a call runs in: the bytes of every [ArrayBuffer], by index, and
    the lines written to the console so far, oldest first. *)
Record World : Type := mkWorld {
  memory : list (list byte);
  console : list Output
}.

Definition M (A : Type) : Type := World -> Completion A * World.

Definition ret {A} (a : A) : M A := fun w => (Return a, w).

Definition throw {A} (e : JsError) : M A := fun w => (Throw e, w).

Definition bind {A B} (m : M A) (k : A -> M B) : M B :=
  fun w =>
    match m w with
    | (Return a, w') => k a w'
    | (Throw e, w') => (Throw e, w')
    end.

(** [try { body } catch (e) { handler }]: what [body] did before it threw
    stays done. *)
Definition try_catch {A} (body : M A) (handler : JsError -> M A) : M A :=
  fun w =>
    match body w with
    | (Return a, w') => (Return a, w')
    | (Throw e, w') => handler e w'
    end.

(** A call into a library function, taken by how it completes; what the
    library allocates on the way is not kept in the world. *)
Definition lift {A} (c : Completion A) : M A := fun w => (c, w).

Definition console_log (line : string) : M unit :=
  fun w => (Return tt, mkWorld (memory w) (console w ++ [stdout line])).

Definition console_error (line : string) : M unit :=
  fun w => (Return tt, mkWorld (memory w) (console w ++ [stderr line])).

Declare Scope js_scope.
Delimit Scope js_scope with js.
Notation "x <- m ;; k" := (bind m (fun x => k))
  (at level 100, m at next level, right associativity) : js_scope.
Notation "m ;; k" := (bind m (fun _ => k))
  (at level 100, right associativity) : js_scope.
Local Open Scope js_scope.

(** ** Strings: decimal, binary and hexadecimal renderings *)

(** The line feed of ['\n']. *)
Definition nl : string := String (ascii_of_nat 10) EmptyString.

(** [`${n}`] for a BigInt, or for a Number that is an integer below 2^53
    in absolute value; a larger Number is printed by JavaScript with the
    shortest digits that read back as the same double. *)
Definition decimal (n : Z) : string := NilZero.string_of_int (Z.to_int n).

(** The double quote. *)
Definition dq : string := String (ascii_of_nat 34) EmptyString.

(** [`${b}`] for a boolean. *)
Definition string_of_bool (b : bool) : string := if b then "true" else "false".

Fixpoint binary_digits (p : positive) : string :=
  match p with
  | xH => "1"
  | xO p' => binary_digits p' ++ "0"
  | xI p' => binary_digits p' ++ "1"
  end.

(** [n.toString(2)] for a non-negative integer. *)
Definition toString2 (n : N) : string :=
  match n with
  | N0 => "0"
  | Npos p => binary_digits p
  end.

(** [s.split(sep)] for a separator of one character. *)
Fixpoint split (sep : ascii) (s : string) : list string :=
  match s with
  | EmptyString => [EmptyString]
  | String c s' =>
      if Ascii.eqb c sep then EmptyString :: split sep s'
      else match split sep s' with
           | piece :: pieces => String c piece :: pieces
           | [] => [String c EmptyString]
           end
  end.

Definition hex_digit (n : N) : ascii :=
  match String.get (N.to_nat n) "0123456789abcdef" with
  | Some c => c
  | None => "0"%char
  end.

Definition hex_of_byte (b : byte) : string :=
  let n := Byte.to_N b in
  String (hex_digit (n / 16)) (String (hex_digit (n mod 16)) EmptyString).

(** [Buffer.from(bytes).toString('hex')], by the string it yields; the copy
    that [Buffer.from] makes on the way is not kept in the world. *)
Definition hex (bytes : list byte) : string :=
  String.concat EmptyString (map hex_of_byte bytes).

(** ** Numbers: the double-precision results the parser computes

    The Numbers in play are non-negative integers, held here as [Z]; a double
    keeps 53 significant bits and rounds to nearest, ties to even. *)
Module Number.

Definition round (x : Z) : Z :=
  if x <? 2 ^ 53 then x
  else
    let e := Z.log2 x - 52 in
    let q := x / 2 ^ e in
    let r := x mod 2 ^ e in
    let half := 2 ^ (e - 1) in
    let q' :=
      if r <? half then q
      else if half <? r then q + 1
      else if Z.even q then q else q + 1 in
    q' * 2 ^ e.

(** [Number(n)] for a BigInt [n >= 0]. *)
Definition ofBigInt (n : Z) : Z := round n.

(** [a + b] on Numbers. *)
Definition add (a b : Z) : Z := round (a + b).

End Number.

(** ** Node's Buffer: a view of [length] bytes at [byteOffset] in an
       ArrayBuffer *)
Module Buffer.

Record t : Type := mk {
  arrayBuffer : nat;
  byteOffset : nat;
  length : nat
}.

(** [buffer.constants.MAX_LENGTH]. *)
Definition kMaxLength : Z := 2 ^ 53 - 1.

(** The bytes seen through the view. *)
Definition contents (w : World) (b : t) : list byte :=
  firstn (length b) (skipn (byteOffset b) (nth (arrayBuffer b) (memory w) [])).

(** The view lies inside its ArrayBuffer and is no longer than Node allows. *)
Definition valid (w : World) (b : t) : Prop :=
  List.length (contents w b) = length b /\ Z.of_nat (length b) <= kMaxLength.

(** [this[i]]: [None] stands for [undefined]. *)
Definition get (w : World) (b : t) (i : Z) : option byte :=
  if 0 <=? i then nth_error (contents w b) (Z.to_nat i) else None.

Definition byte_value (b : byte) : Z := Z.of_N (Byte.to_N b).

(** [adjustOffset(offset, length)] of lib/buffer.js, for an integer offset
    ([Math.trunc] is the identity there). *)
Definition adjustOffset (offset length : Z) : Z :=
  if offset =? 0 then 0
  else if offset <? 0 then
    (if 0 <? offset + length then offset + length else 0)
  else if offset <? length then offset
  else length.

(** [buf.slice(start, end)]: a new view on the same memory, nothing copied. *)
Definition slice (b : t) (start end_ : Z) : t :=
  let srcLength := Z.of_nat (length b) in
  let start := adjustOffset start srcLength in
  let end_ := adjustOffset end_ srcLength in
  let newLength := if start <? end_ then end_ - start else 0 in
  mk (arrayBuffer b) (byteOffset b + Z.to_nat start) (Z.to_nat newLength).

(** [buf.readBigUInt64LE(offset)], for an integer offset.  When the first
    or the last of the eight bytes is out of range, [boundsError] throws
    ERR_BUFFER_OUT_OF_BOUNDS on a buffer of fewer than eight bytes and
    ERR_OUT_OF_RANGE otherwise (both are [RangeError]s; the received value
    is printed as it is up to 2^32). *)
Definition readBigUInt64LE (b : t) (offset : Z) : M Z :=
  fun w =>
    match get w b offset, get w b (offset + 7) with
    | Some first, Some last =>
        match get w b (offset + 1), get w b (offset + 2), get w b (offset + 3),
              get w b (offset + 4), get w b (offset + 5), get w b (offset + 6) with
        | Some b1, Some b2, Some b3, Some b4, Some b5, Some b6 =>
            let lo := byte_value first + byte_value b1 * 2 ^ 8
                      + byte_value b2 * 2 ^ 16 + byte_value b3 * 2 ^ 24 in
            let hi := byte_value b4 + byte_value b5 * 2 ^ 8
                      + byte_value b6 * 2 ^ 16 + byte_value last * 2 ^ 24 in
            (Return (lo + Z.shiftl hi 32), w)
        | _, _, _, _, _, _ =>
            (Throw (RangeError "The number NaN cannot be converted to a BigInt because it is not an integer"), w)
        end
    | _, _ =>
        if Z.of_nat (length b) <? 8 then
          (Throw (RangeError "Attempt to access memory outside buffer bounds"), w)
        else
          (Throw (RangeError
                    ("The value of " ++ dq ++ "offset" ++ dq
                     ++ " is out of range. It must be >= 0 and <= "
                     ++ decimal (Z.of_nat (length b) - 8)
                     ++ ". Received " ++ decimal offset)), w)
    end.

(** [buf.toString('hex')]. *)
Definition toString_hex (b : t) : M string :=
  fun w => (Return (hex (contents w b)), w).

End Buffer.

(** ** parseBeaconResponse *)

Record BeaconResponse : Type := mkBeaconResponse {
  chunkLen : Z;
  forkDigest : Buffer.t;
  payload : Buffer.t
}.

Definition parseBeaconResponse (buffer : Buffer.t) : M BeaconResponse :=
  if Z.of_nat (Buffer.length buffer) <? 12 then
    throw (Error "Response too short")
  else
    chunkLen <- Buffer.readBigUInt64LE buffer 0 ;;
    let forkDigest := Buffer.slice buffer 8 12 in
    let payload :=
      Buffer.slice buffer 12 (Number.add 12 (Number.ofBigInt chunkLen)) in
    console_log ("Chunk length: " ++ decimal chunkLen) ;;
    forkHex <- Buffer.toString_hex forkDigest ;;
    console_log ("Fork digest: 0x" ++ forkHex) ;;
    console_log ("Payload length: "
                 ++ decimal (Z.of_nat (Buffer.length payload))) ;;
    ret (mkBeaconResponse chunkLen forkDigest payload).

(** ** The decoded update and the SSZ type objects

    The value classes and the type objects belong to [@lodestar/types] and
    [@chainsafe/ssz].  The records carry the members the program reads. *)

Record BeaconBlockHeader : Type := mkBeaconBlockHeader {
  slot : Z;
  proposerIndex : Z;
  stateRoot : list byte
}.

Record LightClientHeader : Type := mkLightClientHeader {
  beacon : BeaconBlockHeader
}.

Record SyncCommittee : Type := mkSyncCommittee {
  pubkeys : list (list byte);
  aggregatePubkey : list byte
}.

(** The library's [BitArray]: the packed bits and their number. *)
Record BitArray : Type := mkBitArray {
  uint8Array : list byte;
  bitLen : Z
}.

Record SyncAggregate : Type := mkSyncAggregate {
  syncCommitteeBits : BitArray;
  syncCommitteeSignature : list byte
}.

(** [nextSyncCommittee] is [None] when the member is falsy. *)
Record LightClientUpdate : Type := mkLightClientUpdate {
  attestedHeader : LightClientHeader;
  nextSyncCommittee : option SyncCommittee;
  nextSyncCommitteeBranch : list (list byte);
  finalizedHeader : LightClientHeader;
  finalityBranch : list (list byte);
  syncAggregate : SyncAggregate;
  signatureSlot : Z
}.

(** An SSZ type object of values [V]: [type.hashTreeRoot(value)]. *)
Record SszType (V : Type) : Type := mkSszType {
  hashTreeRoot : V -> Completion (list byte)
}.
Arguments mkSszType {V} hashTreeRoot.
Arguments hashTreeRoot {V} s v.

(** [type.fields] of the update's container type. *)
Module Fields.
Record t : Type := mk {
  nextSyncCommittee : SszType SyncCommittee
}.
End Fields.

(** The container type of the update: [fields] and [deserialize(bytes)]. *)
Record ContainerType : Type := mkContainerType {
  fields : Fields.t;
  deserialize : list byte -> Completion LightClientUpdate
}.

(** A fork's namespace of types, [ssz.electra] and the like; the field is the
    member [LightClientUpdate] of the namespace. *)
Record ForkTypes : Type := mkForkTypes {
  LightClientUpdateType : ContainerType
}.

(** The [ssz] object of the installed [@lodestar/types]: a fork that the
    installed version does not know is [undefined], here [None]. *)
Record SszModule : Type := mkSszModule {
  electra : option ForkTypes;
  deneb : option ForkTypes;
  capella : option ForkTypes
}.

(** [ns.LightClientUpdate]: reading a member of [undefined] throws. *)
Definition get_LightClientUpdate (ns : option ForkTypes) : M ContainerType :=
  match ns with
  | Some types => ret (LightClientUpdateType types)
  | None =>
      throw (TypeError "Cannot read properties of undefined (reading 'LightClientUpdate')")
  end.

(** [Buffer.from(x)] followed by [toString('hex')]; [Buffer.from(undefined)]
    throws. *)
Definition Buffer_from_hex (x : option (list byte)) : M string :=
  match x with
  | Some bytes => ret (hex bytes)
  | None =>
      throw (TypeError "The first argument must be of type string or an instance of Buffer, ArrayBuffer, or Array or an Array-like Object. Received undefined")
  end.

(** Constants *)
Definition ELECTRA_NEXT_SYNC_COMMITTEE_GINDEX : Z := 87.

Section Program.

(** The imported [ssz] object. *)
Variable ssz : SszModule.

(** [uint8Array.toString('hex')] on the bytes of a [BitArray]: hexadecimal
    when the library hands out a [Buffer], comma-separated decimals when it
    hands out a plain [Uint8Array]. *)
Variable uint8Array_toString : list byte -> string.

(** ** getLightClientUpdateType *)

Definition getLightClientUpdateType (forkDigest : Buffer.t) : M ContainerType :=
  forkHex <- Buffer.toString_hex forkDigest ;;
  console_log ("Fork digest: 0x" ++ forkHex) ;;
  try_catch
    (console_log "Trying Electra LightClientUpdate type..." ;;
     get_LightClientUpdate (electra ssz))
    (fun e =>
       try_catch
         (console_log "Trying Deneb LightClientUpdate type..." ;;
          get_LightClientUpdate (deneb ssz))
         (fun e2 =>
            try_catch
              (console_log "Trying Capella LightClientUpdate type..." ;;
               get_LightClientUpdate (capella ssz))
              (fun e3 =>
                 throw (Error "Could not determine LightClientUpdate type for this fork")))).

(** ** displayUpdateInfo *)

(** The loop over [syncBits.uint8Array]:
    [participation += byte.toString(2).split('1').length - 1]. *)
Definition participation (syncBits : BitArray) : Z :=
  fold_left
    (fun participation byte =>
       participation
       + (Z.of_nat (List.length (split "1"%char (toString2 (Byte.to_N byte)))) - 1))
    (uint8Array syncBits) 0.

Definition displayUpdateInfo (update : LightClientUpdate) : M unit :=
  console_log (nl ++ "=== Light Client Update Info ===") ;;
  console_log ("Attested header slot: "
               ++ decimal (slot (beacon (attestedHeader update)))) ;;
  console_log ("Attested header proposer: "
               ++ decimal (proposerIndex (beacon (attestedHeader update)))) ;;
  console_log ("Attested header state root: 0x"
               ++ hex (stateRoot (beacon (attestedHeader update)))) ;;
  console_log ("Finalized header slot: "
               ++ decimal (slot (beacon (finalizedHeader update)))) ;;
  console_log ("Finalized header state root: 0x"
               ++ hex (stateRoot (beacon (finalizedHeader update)))) ;;
  console_log ("Signature slot: " ++ decimal (signatureSlot update)) ;;
  console_log ("Has next sync committee: "
               ++ string_of_bool
                    (match nextSyncCommittee update with
                     | Some _ => true
                     | None => false
                     end)) ;;
  match nextSyncCommittee update with
  | Some committee =>
      console_log ("Next sync committee pubkeys: "
                   ++ decimal (Z.of_nat (List.length (pubkeys committee)))) ;;
      console_log ("Next sync committee branch length: "
                   ++ decimal (Z.of_nat (List.length (nextSyncCommitteeBranch update)))) ;;
      firstPubkey <- Buffer_from_hex (nth_error (pubkeys committee) 0) ;;
      console_log ("First pubkey: 0x" ++ firstPubkey) ;;
      console_log ("Aggregate pubkey: 0x" ++ hex (aggregatePubkey committee))
  | None => ret tt
  end ;;
  console_log ("Finality branch length: "
               ++ decimal (Z.of_nat (List.length (finalityBranch update)))) ;;
  let syncBits := syncCommitteeBits (syncAggregate update) in
  console_log ("Sync committee bits type: BitArray with "
               ++ decimal (bitLen syncBits) ++ " bits") ;;
  let participation := participation syncBits in
  console_log ("Sync committee participation: "
               ++ decimal participation ++ "/512") ;;
  console_log ("Sync committee bits (hex): 0x"
               ++ uint8Array_toString (uint8Array syncBits)) ;;
  console_log ("Sync committee participation: "
               ++ decimal participation ++ "/512") ;;
  console_log ("Sync committee signature: 0x"
               ++ String.substring 0 20
                    (hex (syncCommitteeSignature (syncAggregate update)))
               ++ "...").

(** ** verifyNextSyncCommitteeProof *)

Definition verifyNextSyncCommitteeProof
    (update : LightClientUpdate) (LightClientUpdateType : ContainerType) : M bool :=
  match nextSyncCommittee update with
  | None =>
      console_log "No next sync committee to verify" ;;
      ret true
  | Some committee =>
      console_log (nl ++ "=== Verifying Next Sync Committee Proof ===") ;;
      try_catch
        (let syncCommitteeType :=
           Fields.nextSyncCommittee (fields LightClientUpdateType) in
         syncCommitteeRoot <- lift (hashTreeRoot syncCommitteeType committee) ;;
         console_log ("Sync committee root: 0x" ++ hex syncCommitteeRoot) ;;
         console_log "✅ Successfully computed sync committee root using SSZ library" ;;
         ret true)
        (fun error =>
           console_error ("❌ Error verifying sync committee proof: "
                          ++ message error) ;;
           ret false)
  end.

End Program.

(** * Specification-side notions *)

(** The unsigned little-endian integer held by a run of bytes. *)
Fixpoint le_uint (bytes : list byte) : Z :=
  match bytes with
  | [] => 0
  | b :: rest => Buffer.byte_value b + 256 * le_uint rest
  end.

(** The slice [[s, e)] of a list. *)
Definition list_slice {A} (l : list A) (s e : nat) : list A :=
  firstn (e - s) (skipn s l).

(** The number of set bits among the eight bits of a byte. *)
Definition popcount_byte (b : byte) : Z :=
  Z.of_nat (List.length (filter (N.testbit (Byte.to_N b)) [0; 1; 2; 3; 4; 5; 6; 7]%N)).

(** The population count over raw bytes. *)
Definition popcount (bytes : list byte) : Z :=
  fold_right (fun b n => popcount_byte b + n) 0 bytes.

Definition UnknownFork : JsError :=
  Error "Could not determine LightClientUpdate type for this fork".

(** ** Frame: what a computation leaves untouched *)

(** A computation preserves the memory when no ArrayBuffer byte differs
    after it, however it ends. *)
Definition preserves_memory {A} (m : M A) : Prop :=
  forall w, memory (snd (m w)) = memory w.

(** ** Sample frames *)

(** Header announcing three bytes, digest [de ad be ef], three bytes. *)
Definition frame_exact : list byte :=
  [x03; x00; x00; x00; x00; x00; x00; x00; xde; xad; xbe; xef; x0a; x0b; x0c].

(** Header announcing five bytes, digest, and nothing after it. *)
Definition frame_cut : list byte :=
  [x05; x00; x00; x00; x00; x00; x00; x00; xde; xad; xbe; xef].

(** Header announcing no bytes, digest, and nothing after it. *)
Definition frame_empty : list byte :=
  [x00; x00; x00; x00; x00; x00; x00; x00; xde; xad; xbe; xef].

(** Three bytes: shorter than a header. *)
Definition frame_tiny : list byte := [x01; x02; x03].

(** A world holding exactly one file, and the Buffer that views all of it. *)
Definition world_of (file : list byte) : World := mkWorld [file] [].
Definition buffer_of (file : list byte) : Buffer.t :=
  Buffer.mk 0 0 (List.length file).

(** ** Sample update and sample type objects *)

(** An update of the Electra shape: 512 public keys of 48 bytes, a branch of
    six nodes, a finality branch of seven, all 512 participation bits set. *)
Definition sample_update : LightClientUpdate :=
  mkLightClientUpdate
    (mkLightClientHeader (mkBeaconBlockHeader 7000001 11 (repeat x5a 32)))
    (Some (mkSyncCommittee (repeat (repeat xa1 48) 512) (repeat xa2 48)))
    (repeat (repeat x00 32) 6)
    (mkLightClientHeader (mkBeaconBlockHeader 6999936 22 (repeat x5b 32)))
    (repeat (repeat x01 32) 7)
    (mkSyncAggregate (mkBitArray (repeat xff 64) 512) (repeat xc3 96))
    7000002.

(** The same update with the [nextSyncCommittee] member missing. *)
Definition sample_update_without_committee : LightClientUpdate :=
  mkLightClientUpdate (attestedHeader sample_update) None
    (nextSyncCommitteeBranch sample_update) (finalizedHeader sample_update)
    (finalityBranch sample_update) (syncAggregate sample_update)
    (signatureSlot sample_update).

(** A type object standing in for a fork's [LightClientUpdate] type: its
    [hashTreeRoot] returns 32 bytes [tag], its [deserialize] refuses the
    empty payload and returns [sample_update] otherwise. *)
Definition sample_type (tag : byte) : ContainerType :=
  mkContainerType
    (Fields.mk (mkSszType (fun _ => Return (repeat tag 32))))
    (fun bytes =>
       match bytes with
       | [] => Throw (Error "Invalid size 0")
       | _ :: _ => Return sample_update
       end).

(** A type object whose [hashTreeRoot] throws. *)
Definition throwing_type : ContainerType :=
  mkContainerType
    (Fields.mk (mkSszType (fun _ => Throw (Error "Invalid value"))))
    (fun _ => Throw (Error "Invalid size")).

(** An [ssz] object that knows the three forks. *)
Definition sample_ssz : SszModule :=
  mkSszModule (Some (mkForkTypes (sample_type xe1)))
              (Some (mkForkTypes (sample_type xde)))
              (Some (mkForkTypes (sample_type xca))).

(** Sample rendering of the bit-vector bytes, as a [Buffer] does it. *)
Definition sample_bits_toString : list byte -> string := hex.

(** ** Schema resolution as the spec words it *)

(** Trial decoding of [payload] against the schemas in order: the first one
    that decodes wins, [UnknownFork] when none does. *)
Fixpoint spec_probe (schemas : list ContainerType) (payload : list byte)
    : Completion ContainerType :=
  match schemas with
  | [] => Throw UnknownFork
  | schema :: older =>
      match deserialize schema payload with
      | Return _ => Return schema
      | Throw _ => spec_probe older payload
      end
  end.

(** The known fork schemas of an [ssz] object, most recent first. *)
Definition known_schemas (ssz : SszModule) : list ContainerType :=
  flat_map
    (fun ns => match ns with
               | Some types => [LightClientUpdateType types]
               | None => []
               end)
    [electra ssz; deneb ssz; capella ssz].

(** The spec's [resolve]: exact match of the digest in the table first, then
    the probing of the known schemas in descending version order. *)
Definition spec_resolve (table : list (list byte * ContainerType))
    (ssz : SszModule) (forkDigest payload : list byte)
    : Completion ContainerType :=
  match find (fun entry =>
                if list_eq_dec byte_eq_dec (fst entry) forkDigest
                then true else false) table with
  | Some entry => Return (snd entry)
  | None => spec_probe (known_schemas ssz) payload
  end.

(** ** Changing the proof carried by an update *)

Definition set_nextSyncCommitteeBranch (branch : list (list byte))
    (update : LightClientUpdate) : LightClientUpdate :=
  mkLightClientUpdate (attestedHeader update) (nextSyncCommittee update) branch
    (finalizedHeader update) (finalityBranch update) (syncAggregate update)
    (signatureSlot update).

Definition set_attested_stateRoot (root : list byte)
    (update : LightClientUpdate) : LightClientUpdate :=
  let header := beacon (attestedHeader update) in
  mkLightClientUpdate
    (mkLightClientHeader
       (mkBeaconBlockHeader (slot header) (proposerIndex header) root))
    (nextSyncCommittee update) (nextSyncCommitteeBranch update)
    (finalizedHeader update) (finalityBranch update) (syncAggregate update)
    (signatureSlot update).

Fixpoint replace_nth {A} (n : nat) (x : A) (l : list A) : list A :=
  match l, n with
  | [], _ => []
  | _ :: rest, O => x :: rest
  | y :: rest, S n' => y :: replace_nth n' x rest
  end.

(** Byte [j] of node [i] of a branch set to [v]. *)
Definition mutate_branch (i j : nat) (v : byte) (branch : list (list byte))
    : list (list byte) :=
  match nth_error branch i with
  | Some node => replace_nth i (replace_nth j v node) branch
  | None => branch
  end.

(** [buf.writeUInt8(value, offset)]: one byte stored through a view.  The
    program never calls it; it is here to show what a write does to the
    memory that views share. *)
Definition Buffer_writeUInt8 (b : Buffer.t) (value : byte) (offset : nat) : M unit :=
  fun w =>
    if (offset <? Buffer.length b)%nat then
      let bytes := nth (Buffer.arrayBuffer b) (memory w) [] in
      (Return tt,
       mkWorld
         (replace_nth (Buffer.arrayBuffer b)
            (replace_nth (Buffer.byteOffset b + offset) value bytes) (memory w))
         (console w))
    else (Throw (RangeError "The value of offset is out of range"), w).

(** The world after some more console lines. *)
Definition printed (w : World) (lines : list Output) : World :=
  mkWorld (memory w) (console w ++ lines).

(** The first line of a verification run. *)
Definition verifying_line : Output :=
  stdout (nl ++ "=== Verifying Next Sync Committee Proof ===").

(** ** readSSZFile and main *)

(** The two calls the program makes into Node's [fs]: whether a path exists,
    and the bytes [readFileSync] returns for it (or the error it throws).
    [around] tells where Node puts those bytes: the bytes before and after
    them in the ArrayBuffer of the Buffer returned.  Both are empty when the
    Buffer has an ArrayBuffer of its own (files of 4096 bytes or more); for
    a smaller file they are the rest of Node's shared pool of 8192 bytes. *)
Record FileSystem : Type := mkFileSystem {
  existsSync : string -> bool;
  readFileSync : string -> Completion (list byte);
  around : string -> list byte * list byte
}.

(** The Buffer a read hands back: a view of the bytes read, inside an
    ArrayBuffer that holds [before], the bytes read and [after].  That
    ArrayBuffer enters the world at the next free index. *)
Definition Buffer_alloc (before after bytes : list byte) : M Buffer.t :=
  fun w =>
    (Return (Buffer.mk (List.length (memory w)) (List.length before)
               (List.length bytes)),
     mkWorld (memory w ++ [(before ++ bytes ++ after)%list]) (console w)).

(** The bytes a library call reads through a Buffer it is given. *)
Definition Buffer_bytes (b : Buffer.t) : M (list byte) :=
  fun w => (Return (Buffer.contents w b), w).

Section Main.

Variable fs : FileSystem.
Variable ssz : SszModule.
Variable uint8Array_toString : list byte -> string.

(** [error.code] and [error.stack] of a thrown error, [None] when the
    member is missing or falsy. *)
Variable error_code : JsError -> option string.
Variable error_stack : JsError -> option string.

Definition readSSZFile (filename : string) : M Buffer.t :=
  console_log ("Reading SSZ data from: " ++ filename) ;;
  if negb (existsSync fs filename) then
    throw (Error ("File not found: " ++ filename))
  else
    bytes <- lift (readFileSync fs filename) ;;
    buffer <- Buffer_alloc (fst (around fs filename)) (snd (around fs filename))
                bytes ;;
    console_log ("Read " ++ decimal (Z.of_nat (Buffer.length buffer))
                 ++ " bytes of SSZ data") ;;
    ret buffer.

(** The [try] block of [main], on [process.argv].  The value returned is
    the exit status of the process: the argument of [process.exit], or 0
    when the block runs to its end. *)
Definition main_try (argv : list string) : M Z :=
  let args := skipn 2 argv in
  match args with
  | [] =>
      console_log "Usage: node chainsafe_ssz_decoder.js <ssz_file>" ;;
      console_log "Example: node chainsafe_ssz_decoder.js light_client_update.ssz" ;;
      console_log EmptyString ;;
      console_log "To save SSZ data first:" ;;
      console_log ("curl -H " ++ dq ++ "Accept: application/octet-stream" ++ dq ++ " \") ;;
      console_log ("  " ++ dq
                   ++ "localhost:5052/eth/v1/beacon/light_client/updates?start_period=2140&count=1"
                   ++ dq ++ " \") ;;
      console_log "  --output light_client_update.ssz" ;;
      ret 1
  | filename :: _ =>
      sszBuffer <- readSSZFile filename ;;
      response <- parseBeaconResponse sszBuffer ;;
      LightClientUpdateType <- getLightClientUpdateType ssz (forkDigest response) ;;
      console_log (nl ++ "=== Decoding Light Client Update with SSZ Library ===") ;;
      bytes <- Buffer_bytes (payload response) ;;
      update <- lift (deserialize LightClientUpdateType bytes) ;;
      console_log "✅ Successfully decoded Light Client Update!" ;;
      displayUpdateInfo uint8Array_toString update ;;
      isValid <- verifyNextSyncCommitteeProof update LightClientUpdateType ;;
      if isValid then
        console_log (nl ++ "✅ Light client update processed successfully!") ;;
        ret 0
      else
        console_log (nl ++ "❌ Light client update verification failed!") ;;
        ret 1
  end.

(** The [catch (error)] block of [main]: it always ends in
    [process.exit(1)]. *)
Definition main_catch (error : JsError) : M Z :=
  console_error ("Error: " ++ message error) ;;
  match error_code error with
  | Some code =>
      if String.eqb code "MODULE_NOT_FOUND" then
        console_error (nl ++ "💡 Missing dependencies! Run:") ;;
        console_error "npm install @lodestar/types @chainsafe/ssz"
      else ret tt
  | None => ret tt
  end ;;
  match error_stack error with
  | Some stack =>
      console_error (nl ++ "Stack trace:") ;;
      console_error stack
  | None => ret tt
  end ;;
  ret 1.

Definition main (argv : list string) : M Z :=
  try_catch (main_try argv) main_catch.

End Main.

(** ** Frames on the wire, and sample files *)

(** The [n] low bytes of [v], least significant first. *)
Fixpoint le_bytes (n : nat) (v : Z) : list byte :=
  match n with
  | O => []
  | S n' =>
      match Byte.of_N (Z.to_N (v mod 256)) with
      | Some b => b :: le_bytes n' (v / 256)
      | None => []
      end
  end.

(** The response format the parser's comment describes: 8 bytes of chunk
    length, little-endian, 4 bytes of fork digest, then the payload. *)
Definition frame (digest body : list byte) : list byte :=
  le_bytes 8 (Z.of_nat (List.length body)) ++ digest ++ body.

(** A file system with the one file [light_client_update.ssz], which Node
    serves from its pool: 3624 bytes before it, and the rest of the 8192
    bytes after it. *)
Definition sample_fs (file : list byte) : FileSystem :=
  mkFileSystem
    (fun path => String.eqb path "light_client_update.ssz")
    (fun path =>
       if String.eqb path "light_client_update.ssz" then Return file
       else Throw (Error "ENOENT: no such file or directory"))
    (fun path =>
       (repeat x00 (Z.to_nat 3624),
        repeat x00 (Z.to_nat 4568 - List.length file))).

(** An [ssz] object of a library that does not know Electra yet, and one
    that knows none of the three forks. *)
Definition sample_ssz_without_electra : SszModule :=
  mkSszModule None
              (Some (mkForkTypes (sample_type xde)))
              (Some (mkForkTypes (sample_type xca))).

Definition sample_ssz_without_forks : SszModule := mkSszModule None None None.

(** A file with a frame of three bytes and two more bytes after it. *)
Definition frame_followed : list byte :=
  frame [xde; xad; xbe; xef] [x0a; x0b; x0c] ++ [x07; x07].

(** A type object that decodes like [sample_type] and whose [hashTreeRoot]
    throws, and an [ssz] object that knows it as the Electra type only. *)
Definition unhashable_type : ContainerType :=
  mkContainerType
    (Fields.mk (mkSszType (fun _ => Throw (Error "Invalid value"))))
    (deserialize (sample_type x00)).

Definition unhashable_ssz : SszModule :=
  mkSszModule (Some (mkForkTypes unhashable_type)) None None.

(** Error objects without [code], with a stack. *)
Definition sample_code (e : JsError) : option string := None.
Definition sample_stack (e : JsError) : option string :=
  Some (name e ++ ": " ++ message e).

Definition sample_argv : list string :=
  ["node"; "chainsafe_ssz_decoder.js"; "light_client_update.ssz"].

(** ** When the program accepts its input *)



(** ** What a computation may print *)

Definition is_stdout (o : Output) : Prop :=
  match o with
  | stdout _ => True
  | stderr _ => False
  end.

(** A computation only prints lines of kind [P] when all it does to the
    world is to add such lines at the end of the console. *)
Definition only_prints (P : Output -> Prop) {A} (m : M A) : Prop :=
  forall w, exists lines, snd (m w) = printed w lines /\ Forall P lines.

(** The stages of the [try] block on a command line that names a file. *)
Definition stages fs ssz bits_toString filename w
    buffer w1 response w2 schema w3 update w5 isValid w6 : Prop :=
  readSSZFile fs filename w = (Return buffer, w1)
  /\ parseBeaconResponse buffer w1 = (Return response, w2)
  /\ getLightClientUpdateType ssz (forkDigest response) w2 = (Return schema, w3)
  /\ deserialize schema (Buffer.contents w3 (payload response)) = Return update
  /\ displayUpdateInfo bits_toString update
       (printed w3
          [stdout (nl ++ "=== Decoding Light Client Update with SSZ Library ===");
           stdout "✅ Successfully decoded Light Client Update!"])
     = (Return tt, w5)
  /\ verifyNextSyncCommitteeProof update schema w5 = (Return isValid, w6).

Definition verdict_line (isValid : bool) : Output :=
  if isValid then stdout (nl ++ "✅ Light client update processed successfully!")
  else stdout (nl ++ "❌ Light client update verification failed!").

(** * Properties *)

(** ** Rounding to a double *)

Lemma round_exact x : x < 2 ^ 53 -> Number.round x = x.
Proof.
  intros Hx. unfold Number.round.
  destruct (Z.ltb_spec x (2 ^ 53)) as [_ | Hge]; [reflexivity | lia].
Qed.

Lemma round_large x : 2 ^ 53 <= x -> 2 ^ 53 <= Number.round x.
Proof.
  intros Hx. unfold Number.round.
  destruct (Z.ltb_spec x (2 ^ 53)) as [Hlt | _]; [lia |].
  assert (Hpos : 0 < x) by lia.
  assert (Hlog : 53 <= Z.log2 x) by (apply Z.log2_le_pow2; lia).
  destruct (Z.log2_spec x Hpos) as [Hlo _].
  set (e := Z.log2 x - 52) in *.
  assert (He : 1 <= e) by (subst e; lia).
  assert (Hsplit : 2 ^ Z.log2 x = 2 ^ 52 * 2 ^ e).
  { rewrite <- Z.pow_add_r by lia. f_equal. subst e. lia. }
  assert (Hpe : 2 <= 2 ^ e).
  { change 2 with (2 ^ 1) at 1. apply Z.pow_le_mono_r; lia. }
  assert (Hq : 2 ^ 52 <= x / 2 ^ e).
  { apply Z.div_le_lower_bound; lia. }
  set (q := x / 2 ^ e) in *.
  assert (Hq' : q <=
    (if x mod 2 ^ e <? 2 ^ (e - 1) then q
     else if 2 ^ (e - 1) <? x mod 2 ^ e then q + 1
     else if Z.even q then q else q + 1))
    by (repeat match goal with |- context [if ?c then _ else _] => destruct c end; lia).
  change (2 ^ 53) with (2 ^ 52 * 2).
  nia.
Qed.

(** [12 + Number(chunkLen)], clamped by [slice] to the buffer's length. *)
Lemma adjust_payload_end c len :
  0 <= c -> 12 <= len -> len <= Buffer.kMaxLength ->
  Buffer.adjustOffset (Number.add 12 (Number.ofBigInt c)) len = Z.min (12 + c) len.
Proof.
  unfold Buffer.kMaxLength, Number.add, Number.ofBigInt, Buffer.adjustOffset.
  intros Hc Hlen Hmax.
  assert (Hend : 12 + c < 2 ^ 53 /\ Number.round (12 + Number.round c) = 12 + c
                 \/ 2 ^ 53 <= 12 + c /\ 2 ^ 53 <= Number.round (12 + Number.round c)).
  { destruct (Z.lt_ge_cases (12 + c) (2 ^ 53)) as [Hs | Hl].
    - left. split; [exact Hs |].
      rewrite (round_exact c) by lia. apply round_exact. exact Hs.
    - right. split; [exact Hl |].
      apply round_large.
      destruct (Z.lt_ge_cases c (2 ^ 53)) as [Hs | Hl'].
      + rewrite (round_exact c) by exact Hs. exact Hl.
      + pose proof (round_large c Hl'). lia. }
  destruct Hend as [[Hs ->] | [Hl Hr]].
  - destruct (Z.eqb_spec (12 + c) 0); [lia |].
    destruct (Z.ltb_spec (12 + c) 0); [lia |].
    destruct (Z.ltb_spec (12 + c) len); lia.
  - set (r := Number.round (12 + Number.round c)) in *.
    destruct (Z.eqb_spec r 0); [lia |].
    destruct (Z.ltb_spec r 0); [lia |].
    destruct (Z.ltb_spec r len); lia.
Qed.

(** ** Buffer views *)

Lemma byte_value_range b : 0 <= Buffer.byte_value b < 256.
Proof.
  unfold Buffer.byte_value. pose proof (Byte.to_N_bounded b). lia.
Qed.

Lemma le_uint_nonneg bytes : 0 <= le_uint bytes.
Proof.
  induction bytes as [| b rest IH]; cbn [le_uint]; [lia |].
  pose proof (byte_value_range b). lia.
Qed.

(** The contents of a view depend on the memory only. *)
Lemma contents_console w lines b :
  Buffer.contents (mkWorld (memory w) lines) b = Buffer.contents w b.
Proof. reflexivity. Qed.

(** A view cut out of a view shows the corresponding slice of its bytes. *)
Lemma contents_subview w b s e :
  (s <= e)%nat -> (e <= Buffer.length b)%nat ->
  Buffer.contents w
    (Buffer.mk (Buffer.arrayBuffer b) (Buffer.byteOffset b + s) (e - s))
  = list_slice (Buffer.contents w b) s e.
Proof.
  intros Hse He. unfold Buffer.contents, list_slice. simpl.
  set (mem := nth (Buffer.arrayBuffer b) (memory w) []).
  rewrite skipn_firstn_comm, firstn_firstn, skipn_skipn.
  rewrite (Nat.add_comm s), Nat.min_l by lia.
  reflexivity.
Qed.

Lemma slice_digest b :
  (12 <= Buffer.length b)%nat ->
  Buffer.slice b 8 12
  = Buffer.mk (Buffer.arrayBuffer b) (Buffer.byteOffset b + 8) (12 - 8).
Proof.
  intros Hlen. unfold Buffer.slice, Buffer.adjustOffset.
  change (8 =? 0) with false. change (12 =? 0) with false.
  change (8 <? 0) with false. change (12 <? 0) with false. cbv iota.
  destruct (Z.ltb_spec 8 (Z.of_nat (Buffer.length b))); [| lia].
  destruct (Z.ltb_spec 12 (Z.of_nat (Buffer.length b))) as [H12 | H12].
  - reflexivity.
  - assert (Heq : Z.of_nat (Buffer.length b) = 12) by lia.
    rewrite Heq. reflexivity.
Qed.

Lemma slice_payload b c :
  0 <= c -> (12 <= Buffer.length b)%nat ->
  Z.of_nat (Buffer.length b) <= Buffer.kMaxLength ->
  Buffer.slice b 12 (Number.add 12 (Number.ofBigInt c))
  = Buffer.mk (Buffer.arrayBuffer b) (Buffer.byteOffset b + 12)
      (Nat.min (12 + Z.to_nat c) (Buffer.length b) - 12).
Proof.
  intros Hc Hlen Hmax. unfold Buffer.slice.
  rewrite adjust_payload_end by lia.
  assert (Hstart : Buffer.adjustOffset 12 (Z.of_nat (Buffer.length b)) = 12).
  { unfold Buffer.adjustOffset.
    change (12 =? 0) with false. change (12 <? 0) with false. cbv iota.
    destruct (Z.ltb_spec 12 (Z.of_nat (Buffer.length b))); lia. }
  rewrite Hstart. f_equal.
  destruct (Z.ltb_spec 12 (Z.min (12 + c) (Z.of_nat (Buffer.length b)))); lia.
Qed.

Lemma get_nat w b (n : nat) :
  Buffer.get w b (Z.of_nat n) = nth_error (Buffer.contents w b) n.
Proof.
  unfold Buffer.get.
  destruct (Z.leb_spec 0 (Z.of_nat n)); [| lia].
  rewrite Nat2Z.id. reflexivity.
Qed.

(** Reading the eight bytes at offset 0 yields their little-endian value and
    leaves the world as it was. *)
Lemma readBigUInt64LE_0 w b :
  (8 <= List.length (Buffer.contents w b))%nat ->
  Buffer.readBigUInt64LE b 0 w
  = (Return (le_uint (list_slice (Buffer.contents w b) 0 8)), w).
Proof.
  intros Hlen. unfold Buffer.readBigUInt64LE.
  change (Buffer.get w b 0) with (Buffer.get w b (Z.of_nat 0)).
  change (0 + 7) with (Z.of_nat 7). change (0 + 1) with (Z.of_nat 1).
  change (0 + 2) with (Z.of_nat 2). change (0 + 3) with (Z.of_nat 3).
  change (0 + 4) with (Z.of_nat 4). change (0 + 5) with (Z.of_nat 5).
  change (0 + 6) with (Z.of_nat 6).
  rewrite !get_nat. unfold list_slice.
  destruct (Buffer.contents w b)
    as [| b0 [| b1 [| b2 [| b3 [| b4 [| b5 [| b6 [| b7 rest]]]]]]]];
    cbn [List.length] in Hlen; try lia.
  cbn [nth_error Nat.sub firstn skipn le_uint].
  f_equal. f_equal.
  rewrite Z.shiftl_mul_pow2 by lia. lia.
Qed.

(** What the parser does on a buffer of at least twelve bytes. *)
Lemma parseBeaconResponse_long w buffer :
  Buffer.valid w buffer -> (12 <= Buffer.length buffer)%nat ->
  let c := le_uint (list_slice (Buffer.contents w buffer) 0 8) in
  let digest :=
    Buffer.mk (Buffer.arrayBuffer buffer) (Buffer.byteOffset buffer + 8) (12 - 8) in
  let body :=
    Buffer.mk (Buffer.arrayBuffer buffer) (Buffer.byteOffset buffer + 12)
      (Nat.min (12 + Z.to_nat c) (Buffer.length buffer) - 12) in
  parseBeaconResponse buffer w
  = (Return (mkBeaconResponse c digest body),
     mkWorld (memory w)
       (console w
        ++ [stdout ("Chunk length: " ++ decimal c);
            stdout ("Fork digest: 0x" ++ hex (Buffer.contents w digest));
            stdout ("Payload length: "
                    ++ decimal (Z.of_nat (Buffer.length body)))])).
Proof.
  intros [Hin Hmax] Hlen c digest body. unfold parseBeaconResponse.
  destruct (Z.ltb_spec (Z.of_nat (Buffer.length buffer)) 12); [lia |].
  unfold bind at 1. rewrite readBigUInt64LE_0 by lia. fold c.
  rewrite slice_digest by exact Hlen.
  rewrite slice_payload by first [apply le_uint_nonneg | assumption].
  fold digest body.
  unfold bind, console_log, Buffer.toString_hex, ret. simpl.
  rewrite <- !app_assoc. reflexivity.
Qed.

(** ** Frame: what a computation leaves untouched *)

Lemma pm_ret {A} (a : A) : preserves_memory (ret a).
Proof. intros w. reflexivity. Qed.

Lemma pm_throw {A} (e : JsError) : preserves_memory (@throw A e).
Proof. intros w. reflexivity. Qed.

Lemma pm_lift {A} (c : Completion A) : preserves_memory (lift c).
Proof. intros w. reflexivity. Qed.

Lemma pm_console_log line : preserves_memory (console_log line).
Proof. intros w. reflexivity. Qed.

Lemma pm_console_error line : preserves_memory (console_error line).
Proof. intros w. reflexivity. Qed.

Lemma pm_bind {A B} (m : M A) (k : A -> M B) :
  preserves_memory m -> (forall a, preserves_memory (k a)) ->
  preserves_memory (bind m k).
Proof.
  intros Hm Hk w. unfold bind. specialize (Hm w).
  destruct (m w) as [[a | e] w']; simpl in *.
  - rewrite Hk. exact Hm.
  - exact Hm.
Qed.

Lemma pm_try_catch {A} (body : M A) (handler : JsError -> M A) :
  preserves_memory body -> (forall e, preserves_memory (handler e)) ->
  preserves_memory (try_catch body handler).
Proof.
  intros Hb Hh w. unfold try_catch. specialize (Hb w).
  destruct (body w) as [[a | e] w']; simpl in *.
  - exact Hb.
  - rewrite Hh. exact Hb.
Qed.

Lemma pm_readBigUInt64LE b offset :
  preserves_memory (Buffer.readBigUInt64LE b offset).
Proof.
  intros w. unfold Buffer.readBigUInt64LE.
  repeat match goal with
         | |- context [match ?x with Some _ => _ | None => _ end] => destruct x
         end;
    try destruct (Z.of_nat (Buffer.length b) <? 8); reflexivity.
Qed.

Lemma pm_toString_hex b : preserves_memory (Buffer.toString_hex b).
Proof. intros w. reflexivity. Qed.

Create HintDb frame.
#[export] Hint Resolve pm_ret pm_throw pm_lift pm_console_log pm_console_error
  pm_bind pm_try_catch pm_readBigUInt64LE pm_toString_hex : frame.

(** A write does not preserve the memory, and a write through the payload
    view of a frame shows in the buffer the view was cut from. *)
Lemma write_through_payload_view :
  let w := world_of frame_exact in
  let buffer := buffer_of frame_exact in
  let view := Buffer.slice buffer 12 15 in
  ~ preserves_memory (Buffer_writeUInt8 view xff 0)
  /\ Buffer.contents (snd (Buffer_writeUInt8 view xff 0 w)) buffer
     <> Buffer.contents w buffer.
Proof.
  cbv zeta. split.
  - intros Hpm. specialize (Hpm (world_of frame_exact)).
    vm_compute in Hpm. discriminate Hpm.
  - vm_compute. discriminate.
Qed.


Lemma valid_buffer_of file :
  Z.of_nat (List.length file) <= Buffer.kMaxLength ->
  Buffer.valid (world_of file) (buffer_of file).
Proof.
  intros Hmax. split; [| exact Hmax].
  unfold Buffer.contents, world_of, buffer_of. simpl.
  rewrite firstn_all. reflexivity.
Qed.

(** ** The framing parser *)




Lemma list_slice_clamp {A} (l : list A) (s e : nat) :
  list_slice l s (Nat.min e (List.length l)) = list_slice l s e.
Proof.
  unfold list_slice.
  destruct (Nat.le_ge_cases e (List.length l)) as [Hle | Hge].
  - rewrite Nat.min_l by exact Hle. reflexivity.
  - rewrite Nat.min_r by exact Hge.
    rewrite !firstn_all2; [reflexivity | |]; rewrite length_skipn; lia.
Qed.

(** C5.  On every buffer of at least twelve bytes the parser returns; the
    [chunkLen] it reports is the unsigned little-endian integer in bytes
    0..7, the fork digest shows bytes 8..11 and the payload shows the slice
    [[12, 12 + chunkLen)] of the buffer's bytes. *)
Theorem parseBeaconResponse_layout w buffer :
  Buffer.valid w buffer -> (12 <= Buffer.length buffer)%nat ->
  exists r w',
    parseBeaconResponse buffer w = (Return r, w')
    /\ chunkLen r = le_uint (list_slice (Buffer.contents w buffer) 0 8)
    /\ Buffer.length (forkDigest r) = 4%nat
    /\ Buffer.contents w' (forkDigest r)
       = list_slice (Buffer.contents w buffer) 8 12
    /\ Buffer.contents w' (payload r)
       = list_slice (Buffer.contents w buffer) 12 (12 + Z.to_nat (chunkLen r)).
Proof.
  intros Hvalid Hlong.
  rewrite (parseBeaconResponse_long w buffer Hvalid Hlong).
  eexists. eexists. split; [reflexivity |].
  cbn [chunkLen forkDigest payload]. rewrite !contents_console.
  destruct Hvalid as [Hin _].
  split; [reflexivity |]. split; [reflexivity |]. split.
  - apply contents_subview; lia.
  - rewrite contents_subview by lia.
    rewrite <- Hin at 1. apply list_slice_clamp.
Qed.

Lemma parseBeaconResponse_layout_witness :
  Buffer.valid (world_of frame_exact) (buffer_of frame_exact)
  /\ (12 <= Buffer.length (buffer_of frame_exact))%nat
  /\ exists r w',
       parseBeaconResponse (buffer_of frame_exact) (world_of frame_exact)
       = (Return r, w')
       /\ chunkLen r
          = le_uint (list_slice (Buffer.contents (world_of frame_exact) (buffer_of frame_exact)) 0 8)
       /\ Buffer.length (forkDigest r) = 4%nat
       /\ Buffer.contents w' (forkDigest r)
          = list_slice (Buffer.contents (world_of frame_exact) (buffer_of frame_exact)) 8 12
       /\ Buffer.contents w' (payload r)
          = list_slice (Buffer.contents (world_of frame_exact) (buffer_of frame_exact)) 12
              (12 + Z.to_nat (chunkLen r)).
Proof.
  assert (Hexact : Buffer.valid (world_of frame_exact) (buffer_of frame_exact))
    by (apply valid_buffer_of; vm_compute; discriminate).
  assert (Hlong : (12 <= Buffer.length (buffer_of frame_exact))%nat)
    by (simpl; lia).
  split; [exact Hexact |]. split; [exact Hlong |].
  exact (parseBeaconResponse_layout _ _ Hexact Hlong).
Defined.

(** C8.  A buffer of at least twelve bytes whose header announces zero bytes
    is parsed without an error, and its payload is empty. *)
Theorem parseBeaconResponse_empty_payload w buffer :
  Buffer.valid w buffer -> (12 <= Buffer.length buffer)%nat ->
  le_uint (list_slice (Buffer.contents w buffer) 0 8) = 0 ->
  exists r w',
    parseBeaconResponse buffer w = (Return r, w')
    /\ chunkLen r = 0
    /\ Buffer.length (payload r) = 0%nat
    /\ Buffer.contents w' (payload r) = [].
Proof.
  intros Hvalid Hlong Hzero.
  rewrite (parseBeaconResponse_long w buffer Hvalid Hlong).
  eexists. eexists. split; [reflexivity |].
  cbn [chunkLen payload]. rewrite Hzero.
  split; [reflexivity |].
  assert (Hlen : (Nat.min (12 + Z.to_nat 0) (Buffer.length buffer) - 12 = 0)%nat)
    by lia.
  rewrite Hlen. split; reflexivity.
Qed.

Lemma parseBeaconResponse_empty_payload_witness :
  Buffer.valid (world_of frame_empty) (buffer_of frame_empty)
  /\ (12 <= Buffer.length (buffer_of frame_empty))%nat
  /\ le_uint (list_slice (Buffer.contents (world_of frame_empty) (buffer_of frame_empty)) 0 8) = 0
  /\ exists r w',
       parseBeaconResponse (buffer_of frame_empty) (world_of frame_empty)
       = (Return r, w')
       /\ chunkLen r = 0
       /\ Buffer.length (payload r) = 0%nat
       /\ Buffer.contents w' (payload r) = [].
Proof.
  assert (Hvalid : Buffer.valid (world_of frame_empty) (buffer_of frame_empty))
    by (apply valid_buffer_of; vm_compute; discriminate).
  assert (Hlong : (12 <= Buffer.length (buffer_of frame_empty))%nat)
    by (simpl; lia).
  assert (Hzero : le_uint (list_slice (Buffer.contents (world_of frame_empty) (buffer_of frame_empty)) 0 8) = 0)
    by (vm_compute; reflexivity).
  split; [exact Hvalid |]. split; [exact Hlong |]. split; [exact Hzero |].
  exact (parseBeaconResponse_empty_payload _ _ Hvalid Hlong Hzero).
Defined.


(** ** Participation *)

(** On one byte, the pieces around the ['1'] digits of its binary rendering
    number one more than its set bits. *)
Lemma split_ones_byte (b : byte) :
  Z.of_nat (List.length (split "1"%char (toString2 (Byte.to_N b)))) - 1
  = popcount_byte b.
Proof. destruct b; vm_compute; reflexivity. Qed.

Lemma participation_from acc bytes :
  fold_left
    (fun participation byte =>
       participation
       + (Z.of_nat (List.length (split "1"%char (toString2 (Byte.to_N byte)))) - 1))
    bytes acc
  = acc + popcount bytes.
Proof.
  revert acc. induction bytes as [| b rest IH]; intros acc; cbn [fold_left popcount fold_right].
  - lia.
  - rewrite IH, split_ones_byte. fold (popcount rest). lia.
Qed.

Lemma participation_popcount (syncBits : BitArray) :
  participation syncBits = popcount (uint8Array syncBits).
Proof. unfold participation. rewrite participation_from. lia. Qed.

Lemma popcount_all_ones (n : nat) :
  popcount (repeat xff n) = 8 * Z.of_nat n.
Proof.
  induction n as [| n IH].
  - reflexivity.
  - cbn [repeat popcount fold_right]. fold (popcount (repeat xff n)).
    rewrite IH. change (popcount_byte xff) with 8. lia.
Qed.

Lemma In_snoc {A} (x : A) (l : list A) : In x (l ++ [x]).
Proof. apply in_or_app. right. left. reflexivity. Qed.

Lemma In_snoc_more {A} (x y : A) (l : list A) : In x l -> In x (l ++ [y]).
Proof. intros H. apply in_or_app. left. exact H. Qed.

(** C6.  The report completes on every update whose next sync committee, if
    there is one, has a first public key; the participation it prints is the
    population count over the raw bytes of the sync-committee bit-vector,
    always "out of 512"; for the 64 bytes [ff] of an all-ones vector of 512
    bits the line reads 512/512. *)
Theorem displayUpdateInfo_participation bits_toString update w :
  (forall committee,
     nextSyncCommittee update = Some committee -> pubkeys committee <> []) ->
  exists w',
    displayUpdateInfo bits_toString update w = (Return tt, w')
    /\ participation (syncCommitteeBits (syncAggregate update))
       = popcount (uint8Array (syncCommitteeBits (syncAggregate update)))
    /\ In (stdout ("Sync committee participation: "
                   ++ decimal (popcount (uint8Array (syncCommitteeBits (syncAggregate update))))
                   ++ "/512"))
          (console w')
    /\ (uint8Array (syncCommitteeBits (syncAggregate update)) = repeat xff 64 ->
        In (stdout "Sync committee participation: 512/512") (console w')).
Proof.
  intros Hkeys.
  assert (Hrun : exists w',
    displayUpdateInfo bits_toString update w = (Return tt, w')
    /\ In (stdout ("Sync committee participation: "
                   ++ decimal (participation (syncCommitteeBits (syncAggregate update)))
                   ++ "/512"))
          (console w')).
  { unfold displayUpdateInfo. cbv zeta.
    unfold bind, console_log, ret, Buffer_from_hex, throw.
    cbn [memory console].
    destruct (nextSyncCommittee update) as [committee |].
    - specialize (Hkeys committee eq_refl).
      destruct (pubkeys committee) as [| pk rest]; [contradiction |].
      cbn [nth_error]. eexists. split; [reflexivity |].
      cbn [console]. apply In_snoc_more. apply In_snoc.
    - eexists. split; [reflexivity |].
      cbn [console]. apply In_snoc_more. apply In_snoc. }
  destruct Hrun as (w' & Hrun & Hline).
  exists w'. split; [exact Hrun |].
  rewrite participation_popcount in Hline.
  split; [apply participation_popcount |].
  split; [exact Hline |].
  intros Hones. rewrite Hones, popcount_all_ones in Hline. exact Hline.
Qed.

(** ** getLightClientUpdateType *)

(** Every run: the digest is logged, then the forks are tried in the order
    Electra, Deneb, Capella; a fork is given up when reading its type throws. *)
Lemma getLightClientUpdateType_run ssz forkDigest w :
  getLightClientUpdateType ssz forkDigest w
  = let digest_line := stdout ("Fork digest: 0x" ++ hex (Buffer.contents w forkDigest)) in
    let try_electra := stdout "Trying Electra LightClientUpdate type..." in
    let try_deneb := stdout "Trying Deneb LightClientUpdate type..." in
    let try_capella := stdout "Trying Capella LightClientUpdate type..." in
    match electra ssz, deneb ssz, capella ssz with
    | Some types, _, _ =>
        (Return (LightClientUpdateType types),
         printed w [digest_line; try_electra])
    | None, Some types, _ =>
        (Return (LightClientUpdateType types),
         printed w [digest_line; try_electra; try_deneb])
    | None, None, Some types =>
        (Return (LightClientUpdateType types),
         printed w [digest_line; try_electra; try_deneb; try_capella])
    | None, None, None =>
        (Throw UnknownFork,
         printed w [digest_line; try_electra; try_deneb; try_capella])
    end.
Proof.
  unfold getLightClientUpdateType, bind, try_catch, Buffer.toString_hex,
    console_log, get_LightClientUpdate, ret, throw, printed.
  cbn [memory console].
  destruct (electra ssz), (deneb ssz), (capella ssz);
    cbn [memory console]; rewrite <- ?app_assoc; reflexivity.
Qed.

(** C3, as the code has it.  No table of digests is consulted: the digest is
    logged first and the outcome is the same for every digest.  The forks
    are tried in the fixed order Electra, Deneb, Capella, the first type
    obtained is returned, and the error "Could not determine LightClientUpdate
    type for this fork" (the spec's UnknownFork) is thrown when none is. *)
Theorem getLightClientUpdateType_order ssz forkDigest w :
  fst (getLightClientUpdateType ssz forkDigest w)
  = match known_schemas ssz with
    | schema :: _ => Return schema
    | [] => Throw UnknownFork
    end
  /\ (forall forkDigest',
        fst (getLightClientUpdateType ssz forkDigest' w)
        = fst (getLightClientUpdateType ssz forkDigest w))
  /\ exists lines,
       snd (getLightClientUpdateType ssz forkDigest w)
       = printed w
           (stdout ("Fork digest: 0x" ++ hex (Buffer.contents w forkDigest))
            :: stdout "Trying Electra LightClientUpdate type..." :: lines).
Proof.
  split; [| split].
  - rewrite getLightClientUpdateType_run. unfold known_schemas. cbv zeta.
    destruct (electra ssz), (deneb ssz), (capella ssz); reflexivity.
  - intros forkDigest'. rewrite !getLightClientUpdateType_run. cbv zeta.
    destruct (electra ssz), (deneb ssz), (capella ssz); reflexivity.
  - rewrite getLightClientUpdateType_run. cbv zeta.
    destruct (electra ssz), (deneb ssz), (capella ssz);
      cbn [snd]; eexists; reflexivity.
Qed.

(** C10, as the code has it.  With an [ssz] object that has the Electra
    types, every fork digest gets the Electra [LightClientUpdate] type:
    nothing is thrown, and the console shows the digest and the Electra
    attempt only, so neither the Deneb nor the Capella branch nor the final
    [throw] is reached. *)
Theorem getLightClientUpdateType_always_electra ssz types forkDigest w :
  electra ssz = Some types ->
  getLightClientUpdateType ssz forkDigest w
  = (Return (LightClientUpdateType types),
     printed w [stdout ("Fork digest: 0x" ++ hex (Buffer.contents w forkDigest));
                stdout "Trying Electra LightClientUpdate type..."]).
Proof.
  intros Helectra. rewrite getLightClientUpdateType_run, Helectra. reflexivity.
Qed.

Lemma getLightClientUpdateType_always_electra_witness :
  electra sample_ssz = Some (mkForkTypes (sample_type xe1))
  /\ getLightClientUpdateType sample_ssz (Buffer.mk 0 8 4) (world_of frame_exact)
     = (Return (sample_type xe1),
        printed (world_of frame_exact)
          [stdout "Fork digest: 0xdeadbeef";
           stdout "Trying Electra LightClientUpdate type..."]).
Proof.
  split; [reflexivity |].
  exact (getLightClientUpdateType_always_electra sample_ssz
           (mkForkTypes (sample_type xe1)) (Buffer.mk 0 8 4)
           (world_of frame_exact) eq_refl).
Defined.

(** C10, as stated, fails: the guarded read can throw.  With an [ssz]
    object that has no Electra types the Deneb branch is entered and the
    Deneb type is returned; with one that has none of the three forks the
    final error is thrown. *)
Lemma getLightClientUpdateType_reaches_fallbacks :
  let digest := Buffer.mk 0 8 4 in
  let w := world_of frame_exact in
  electra sample_ssz_without_electra = None
  /\ getLightClientUpdateType sample_ssz_without_electra digest w
     = (Return (sample_type xde),
        printed w
          [stdout "Fork digest: 0xdeadbeef";
           stdout "Trying Electra LightClientUpdate type...";
           stdout "Trying Deneb LightClientUpdate type..."])
  /\ fst (getLightClientUpdateType sample_ssz_without_forks digest w)
     = Throw (Error "Could not determine LightClientUpdate type for this fork").
Proof.
  cbv zeta.
  split; [reflexivity |].
  split; [vm_compute; reflexivity |].
  vm_compute. reflexivity.
Qed.

(** C3, as the spec states it, fails twice.  With the digest [de ad be ef]
    registered for the Deneb schema the spec resolves to Deneb and the code
    to Electra; with no digest registered and an empty payload, which no
    schema decodes, the spec ends in UnknownFork and the code returns the
    Electra type. *)
Lemma getLightClientUpdateType_ignores_digest_and_payload :
  let digest := Buffer.mk 0 8 4 in
  let w := world_of frame_exact in
  let root_of (c : Completion ContainerType) :=
    match c with
    | Return schema =>
        Some (hashTreeRoot (Fields.nextSyncCommittee (fields schema))
                (mkSyncCommittee [] []))
    | Throw _ => None
    end in
  Buffer.contents w digest = [xde; xad; xbe; xef]
  /\ root_of (spec_resolve [([xde; xad; xbe; xef], sample_type xde)]
                sample_ssz (Buffer.contents w digest) [x0a; x0b; x0c])
     = Some (Return (repeat xde 32))
  /\ root_of (fst (getLightClientUpdateType sample_ssz digest w))
     = Some (Return (repeat xe1 32))
  /\ spec_resolve [] sample_ssz (Buffer.contents w digest) [] = Throw UnknownFork
  /\ fst (getLightClientUpdateType sample_ssz digest w) <> Throw UnknownFork.
Proof.
  cbv zeta.
  split; [reflexivity |].
  split; [vm_compute; reflexivity |].
  split; [vm_compute; reflexivity |].
  split; [vm_compute; reflexivity |].
  vm_compute. discriminate.
Qed.

(** ** verifyNextSyncCommitteeProof *)

(** The three ways a run can go. *)
Lemma verify_absent update sszType w :
  nextSyncCommittee update = None ->
  verifyNextSyncCommitteeProof update sszType w
  = (Return true, printed w [stdout "No next sync committee to verify"]).
Proof.
  intros Hnone. unfold verifyNextSyncCommitteeProof. rewrite Hnone. reflexivity.
Qed.

Lemma verify_root update sszType w committee root :
  nextSyncCommittee update = Some committee ->
  hashTreeRoot (Fields.nextSyncCommittee (fields sszType)) committee = Return root ->
  verifyNextSyncCommitteeProof update sszType w
  = (Return true,
     printed w
       [verifying_line;
        stdout ("Sync committee root: 0x" ++ hex root);
        stdout "✅ Successfully computed sync committee root using SSZ library"]).
Proof.
  intros Hsome Hroot. unfold verifyNextSyncCommitteeProof. rewrite Hsome.
  unfold bind, try_catch, lift, console_log, ret, printed. cbv zeta.
  cbn [memory console]. rewrite Hroot. cbn [memory console].
  rewrite <- !app_assoc. reflexivity.
Qed.

Lemma verify_throw update sszType w committee error :
  nextSyncCommittee update = Some committee ->
  hashTreeRoot (Fields.nextSyncCommittee (fields sszType)) committee = Throw error ->
  verifyNextSyncCommitteeProof update sszType w
  = (Return false,
     printed w
       [verifying_line;
        stderr ("❌ Error verifying sync committee proof: " ++ message error)]).
Proof.
  intros Hsome Hthrow. unfold verifyNextSyncCommitteeProof. rewrite Hsome.
  unfold bind, try_catch, lift, console_log, console_error, ret, printed.
  cbv zeta. cbn [memory console]. rewrite Hthrow. cbn [memory console].
  rewrite <- !app_assoc. reflexivity.
Qed.

(** A run reads neither the branch nor the attested state root. *)
Lemma verify_same_committee update update' sszType w :
  nextSyncCommittee update' = nextSyncCommittee update ->
  verifyNextSyncCommitteeProof update' sszType w
  = verifyNextSyncCommitteeProof update sszType w.
Proof.
  intros Hsame. unfold verifyNextSyncCommitteeProof. rewrite Hsame. reflexivity.
Qed.

(** C1: the code at the input where the claim fails.  With a next sync
    committee present whose root the library computes, the step still reports
    [true] after any one byte of [nextSyncCommitteeBranch] is overwritten. *)
Theorem verify_accepts_mutated_branch update sszType w committee root i j v :
  nextSyncCommittee update = Some committee ->
  hashTreeRoot (Fields.nextSyncCommittee (fields sszType)) committee = Return root ->
  fst (verifyNextSyncCommitteeProof
         (set_nextSyncCommitteeBranch
            (mutate_branch i j v (nextSyncCommitteeBranch update)) update)
         sszType w)
  = Return true.
Proof.
  intros Hsome Hroot.
  rewrite (verify_same_committee update) by reflexivity.
  rewrite (verify_root update sszType w committee root Hsome Hroot).
  reflexivity.
Qed.

Lemma verify_accepts_mutated_branch_witness :
  nextSyncCommittee sample_update
  = Some (mkSyncCommittee (repeat (repeat xa1 48) 512) (repeat xa2 48))
  /\ hashTreeRoot (Fields.nextSyncCommittee (fields (sample_type xe1)))
       (mkSyncCommittee (repeat (repeat xa1 48) 512) (repeat xa2 48))
     = Return (repeat xe1 32)
  /\ mutate_branch 0 0 xff (nextSyncCommitteeBranch sample_update)
     <> nextSyncCommitteeBranch sample_update
  /\ fst (verifyNextSyncCommitteeProof
            (set_nextSyncCommitteeBranch
               (mutate_branch 0 0 xff (nextSyncCommitteeBranch sample_update))
               sample_update)
            (sample_type xe1) (world_of []))
     = Return true.
Proof.
  split; [reflexivity |]. split; [reflexivity |].
  split; [vm_compute; discriminate |].
  exact (verify_accepts_mutated_branch sample_update (sample_type xe1)
           (world_of []) _ (repeat xe1 32) 0 0 xff eq_refl eq_refl).
Defined.

(** C2.  With a next sync committee present, the step returns [true]
    whenever the library computes the committee's hash-tree-root, and the
    whole run (result and console) is the same whatever the branch and the
    attested state root are. *)
Theorem verify_ignores_proof update sszType w committee :
  nextSyncCommittee update = Some committee ->
  (forall root,
     hashTreeRoot (Fields.nextSyncCommittee (fields sszType)) committee = Return root ->
     fst (verifyNextSyncCommitteeProof update sszType w) = Return true)
  /\ (forall branch stateRoot',
        verifyNextSyncCommitteeProof
          (set_nextSyncCommitteeBranch branch
             (set_attested_stateRoot stateRoot' update)) sszType w
        = verifyNextSyncCommitteeProof update sszType w).
Proof.
  intros Hsome. split.
  - intros root Hroot.
    rewrite (verify_root update sszType w committee root Hsome Hroot).
    reflexivity.
  - intros branch stateRoot'. apply verify_same_committee. reflexivity.
Qed.

Lemma verify_ignores_proof_witness :
  nextSyncCommittee sample_update
  = Some (mkSyncCommittee (repeat (repeat xa1 48) 512) (repeat xa2 48))
  /\ fst (verifyNextSyncCommitteeProof sample_update (sample_type xe1) (world_of []))
     = Return true
  /\ verifyNextSyncCommitteeProof
       (set_nextSyncCommitteeBranch []
          (set_attested_stateRoot (repeat xff 32) sample_update))
       (sample_type xe1) (world_of [])
     = verifyNextSyncCommitteeProof sample_update (sample_type xe1) (world_of []).
Proof.
  pose proof (verify_ignores_proof sample_update (sample_type xe1) (world_of [])
                _ eq_refl) as [Htrue Hsame].
  split; [reflexivity |]. split.
  - exact (Htrue (repeat xe1 32) eq_refl).
  - exact (Hsame [] (repeat xff 32)).
Defined.

(** C7, as the code has it.  The step returns a boolean.  With no next sync
    committee it returns [true] after the one line "No next sync committee
    to verify", whatever the type object is: nothing of the type object is
    used, so no root or proof is computed.  With a next sync committee
    whose [hashTreeRoot] throws an error it returns [false] after printing
    the error on stderr. *)
Theorem verify_absent_or_thrown update sszType w :
  (nextSyncCommittee update = None ->
   forall anyType,
     verifyNextSyncCommitteeProof update anyType w
     = (Return true, printed w [stdout "No next sync committee to verify"]))
  /\ (forall committee error,
        nextSyncCommittee update = Some committee ->
        hashTreeRoot (Fields.nextSyncCommittee (fields sszType)) committee = Throw error ->
        fst (verifyNextSyncCommitteeProof update sszType w) = Return false
        /\ console (snd (verifyNextSyncCommitteeProof update sszType w))
           = (console w
              ++ [verifying_line;
                  stderr ("❌ Error verifying sync committee proof: "
                          ++ message error)])%list).
Proof.
  split.
  - intros Hnone anyType. apply verify_absent. exact Hnone.
  - intros committee error Hsome Hthrow.
    rewrite (verify_throw _ _ _ _ _ Hsome Hthrow). split; reflexivity.
Qed.

Lemma verify_absent_or_thrown_witness :
  nextSyncCommittee sample_update_without_committee = None
  /\ verifyNextSyncCommitteeProof sample_update_without_committee throwing_type
       (world_of [])
     = (Return true,
        printed (world_of []) [stdout "No next sync committee to verify"])
  /\ nextSyncCommittee sample_update
     = Some (mkSyncCommittee (repeat (repeat xa1 48) 512) (repeat xa2 48))
  /\ hashTreeRoot (Fields.nextSyncCommittee (fields throwing_type))
       (mkSyncCommittee (repeat (repeat xa1 48) 512) (repeat xa2 48))
     = Throw (Error "Invalid value")
  /\ fst (verifyNextSyncCommitteeProof sample_update throwing_type (world_of []))
     = Return false.
Proof.
  split; [reflexivity |]. split.
  - exact (proj1 (verify_absent_or_thrown sample_update_without_committee
                    throwing_type (world_of [])) eq_refl throwing_type).
  - split; [reflexivity |]. split; [reflexivity |].
    exact (proj1 (proj2 (verify_absent_or_thrown sample_update throwing_type
                           (world_of [])) _ (Error "Invalid value")
                    eq_refl eq_refl)).
Defined.

(** C7, as the spec states it, fails: the result does not tell the three
    outcomes apart.  The step returns [true] both on an update without a
    next sync committee and on one with a committee, and its whole run is
    the same on an update and on that update with a byte of its branch
    overwritten, so a proof that holds and a proof that fails end alike. *)
Lemma verify_does_not_tell_outcomes_apart :
  let w := world_of [] in
  let sszType := sample_type xe1 in
  let corrupted :=
    set_nextSyncCommitteeBranch
      (mutate_branch 0 0 xff (nextSyncCommitteeBranch sample_update))
      sample_update in
  nextSyncCommittee sample_update_without_committee = None
  /\ fst (verifyNextSyncCommitteeProof sample_update_without_committee sszType w)
     = Return true
  /\ fst (verifyNextSyncCommitteeProof sample_update sszType w) = Return true
  /\ nextSyncCommitteeBranch corrupted <> nextSyncCommitteeBranch sample_update
  /\ verifyNextSyncCommitteeProof corrupted sszType w
     = verifyNextSyncCommitteeProof sample_update sszType w.
Proof.
  cbv zeta.
  split; [reflexivity |].
  split; [vm_compute; reflexivity |].
  split; [vm_compute; reflexivity |].
  split; [vm_compute; discriminate |].
  vm_compute. reflexivity.
Qed.

Lemma displayUpdateInfo_participation_witness :
  (forall committee,
     nextSyncCommittee sample_update = Some committee -> pubkeys committee <> [])
  /\ exists w',
       displayUpdateInfo sample_bits_toString sample_update (world_of []) = (Return tt, w')
       /\ In (stdout "Sync committee participation: 512/512") (console w').
Proof.
  assert (Hkeys : forall committee,
            nextSyncCommittee sample_update = Some committee ->
            pubkeys committee <> []).
  { intros committee Hsome. injection Hsome as <-. discriminate. }
  split; [exact Hkeys |].
  destruct (displayUpdateInfo_participation sample_bits_toString sample_update
              (world_of []) Hkeys) as (w' & Hrun & _ & _ & Hones).
  exists w'. split; [exact Hrun |]. apply Hones. reflexivity.
Defined.

(** * Further properties of the program *)

(** ** Stepping through a sequence *)

Lemma bind_return {A B} (m : M A) (k : A -> M B) w a w' :
  m w = (Return a, w') -> bind m k w = k a w'.
Proof. intros Hm. unfold bind. rewrite Hm. reflexivity. Qed.

Lemma bind_throw {A B} (m : M A) (k : A -> M B) w e w' :
  m w = (Throw e, w') -> bind m k w = (Throw e, w').
Proof. intros Hm. unfold bind. rewrite Hm. reflexivity. Qed.

Lemma bind_log {B} line (k : unit -> M B) w :
  bind (console_log line) k w = k tt (printed w [stdout line]).
Proof. reflexivity. Qed.

Lemma printed_printed w lines lines' :
  printed (printed w lines) lines' = printed w (lines ++ lines').
Proof. unfold printed. cbn [memory console]. rewrite app_assoc. reflexivity. Qed.

Lemma printed_nil w : printed w [] = w.
Proof. unfold printed. rewrite app_nil_r. destruct w. reflexivity. Qed.

Lemma contents_printed w lines b :
  Buffer.contents (printed w lines) b = Buffer.contents w b.
Proof. reflexivity. Qed.

(** ** Little-endian bytes *)

Lemma le_bytes_step n v :
  exists b,
    le_bytes (S n) v = b :: le_bytes n (v / 256)
    /\ Buffer.byte_value b = v mod 256.
Proof.
  cbn [le_bytes].
  pose proof (Z.mod_pos_bound v 256 ltac:(lia)) as Hrange.
  destruct (Byte.of_N (Z.to_N (v mod 256))) as [b |] eqn:Hb.
  - exists b. split; [reflexivity |].
    apply Byte.to_of_N in Hb. unfold Buffer.byte_value. rewrite Hb. lia.
  - apply Byte.of_N_None_iff in Hb. lia.
Qed.

Lemma length_le_bytes n v : List.length (le_bytes n v) = n.
Proof.
  revert v. induction n as [| n IH]; intros v; [reflexivity |].
  destruct (le_bytes_step n v) as (b & -> & _).
  cbn [List.length]. rewrite IH. reflexivity.
Qed.

(** Writing a value on [n] bytes and reading them back gives the value. *)
Lemma le_uint_le_bytes n v :
  0 <= v < 256 ^ Z.of_nat n -> le_uint (le_bytes n v) = v.
Proof.
  revert v. induction n as [| n IH]; intros v Hv.
  - cbn in Hv. cbn [le_bytes le_uint]. lia.
  - destruct (le_bytes_step n v) as (b & -> & Hb).
    cbn [le_uint]. rewrite Hb.
    rewrite Nat2Z.inj_succ, Z.pow_succ_r in Hv by lia.
    rewrite IH.
    + pose proof (Z.div_mod v 256 ltac:(lia)). lia.
    + split; [apply Z.div_pos; lia |].
      apply Z.div_lt_upper_bound; lia.
Qed.

Lemma le_uint_bound bytes : le_uint bytes < 256 ^ Z.of_nat (List.length bytes).
Proof.
  induction bytes as [| b rest IH].
  - cbn. lia.
  - cbn [le_uint List.length].
    rewrite Nat2Z.inj_succ, Z.pow_succ_r by lia.
    pose proof (byte_value_range b). lia.
Qed.

(** ** More on the framing parser *)

Lemma parseBeaconResponse_returns_long buffer w r w' :
  parseBeaconResponse buffer w = (Return r, w') ->
  (12 <= Buffer.length buffer)%nat.
Proof.
  unfold parseBeaconResponse.
  destruct (Z.ltb_spec (Z.of_nat (Buffer.length buffer)) 12) as [Hshort | Hlong].
  - discriminate.
  - intros _. lia.
Qed.

Lemma list_slice_middle {A} (a b c : list A) (s e : nat) :
  s = List.length a -> e = (s + List.length b)%nat ->
  list_slice (a ++ b ++ c) s e = b.
Proof.
  intros -> ->. unfold list_slice.
  rewrite skipn_app, skipn_all, Nat.sub_diag. cbn [app skipn].
  replace (List.length a + List.length b - List.length a)%nat
    with (List.length b + 0)%nat by lia.
  rewrite firstn_app_2. cbn [firstn]. apply app_nil_r.
Qed.

(** Round trip.  A buffer that holds a frame (the length of the body on
    eight little-endian bytes, a digest of four bytes, the body) followed by
    any further bytes is parsed into that length, that digest and that body;
    what follows the body is not looked at. *)
Theorem parseBeaconResponse_frame_roundtrip w buffer digest body
    (trailing : list byte) :
  Buffer.valid w buffer ->
  Buffer.contents w buffer = (frame digest body ++ trailing)%list ->
  List.length digest = 4%nat ->
  exists r w',
    parseBeaconResponse buffer w = (Return r, w')
    /\ chunkLen r = Z.of_nat (List.length body)
    /\ Buffer.contents w' (forkDigest r) = digest
    /\ Buffer.contents w' (payload r) = body.
Proof.
  intros Hvalid Hframe Hdigest.
  pose proof Hvalid as [Hin Hmax].
  assert (Hlen : Buffer.length buffer
                 = (8 + (4 + (List.length body + List.length trailing)))%nat).
  { rewrite <- Hin, Hframe. unfold frame.
    rewrite !length_app, length_le_bytes, Hdigest. lia. }
  assert (Hlong : (12 <= Buffer.length buffer)%nat) by lia.
  assert (Hc : le_uint (list_slice (Buffer.contents w buffer) 0 8)
               = Z.of_nat (List.length body)).
  { rewrite Hframe. unfold frame. rewrite <- !app_assoc.
    pose proof (list_slice_middle [] (le_bytes 8 (Z.of_nat (List.length body)))
                  (digest ++ body ++ trailing) 0 8 eq_refl) as Hhead.
    rewrite app_nil_l in Hhead.
    rewrite Hhead by (rewrite length_le_bytes; reflexivity).
    apply le_uint_le_bytes.
    unfold Buffer.kMaxLength in Hmax. change (256 ^ Z.of_nat 8) with (2 ^ 64). lia. }
  rewrite (parseBeaconResponse_long w buffer Hvalid Hlong).
  eexists. eexists. split; [reflexivity |].
  cbn [chunkLen forkDigest payload]. rewrite !contents_console, Hc.
  split; [reflexivity |]. split.
  - rewrite contents_subview by lia.
    rewrite Hframe. unfold frame. rewrite <- !app_assoc.
    apply list_slice_middle; rewrite ?length_le_bytes, ?Hdigest; reflexivity.
  - rewrite contents_subview by lia.
    rewrite Nat2Z.id.
    replace (Nat.min (12 + List.length body) (Buffer.length buffer))
      with (12 + List.length body)%nat by lia.
    rewrite Hframe. unfold frame.
    rewrite (app_assoc (le_bytes 8 _) digest body), <- app_assoc.
    apply list_slice_middle;
      rewrite ?length_app, ?length_le_bytes, ?Hdigest; reflexivity.
Qed.

Lemma parseBeaconResponse_frame_roundtrip_witness :
  Buffer.valid (world_of frame_followed) (buffer_of frame_followed)
  /\ Buffer.contents (world_of frame_followed) (buffer_of frame_followed)
     = (frame [xde; xad; xbe; xef] [x0a; x0b; x0c] ++ [x07; x07])%list
  /\ exists r w',
       parseBeaconResponse (buffer_of frame_followed) (world_of frame_followed)
       = (Return r, w')
       /\ chunkLen r = 3
       /\ Buffer.contents w' (forkDigest r) = [xde; xad; xbe; xef]
       /\ Buffer.contents w' (payload r) = [x0a; x0b; x0c].
Proof.
  assert (Hvalid : Buffer.valid (world_of frame_followed) (buffer_of frame_followed))
    by (apply valid_buffer_of; vm_compute; discriminate).
  assert (Hframe : Buffer.contents (world_of frame_followed) (buffer_of frame_followed)
                   = (frame [xde; xad; xbe; xef] [x0a; x0b; x0c] ++ [x07; x07])%list)
    by (vm_compute; reflexivity).
  split; [exact Hvalid |]. split; [exact Hframe |].
  exact (parseBeaconResponse_frame_roundtrip _ _ _ _ _ Hvalid Hframe eq_refl).
Defined.

Lemma length_list_slice {A} (l : list A) (s e : nat) :
  (e <= List.length l)%nat -> List.length (list_slice l s e) = (e - s)%nat.
Proof.
  intros He. unfold list_slice. rewrite length_firstn, length_skipn. lia.
Qed.

(** The shape of what the parser returns on a valid buffer. *)
Lemma parseBeaconResponse_result w buffer r w' :
  Buffer.valid w buffer ->
  parseBeaconResponse buffer w = (Return r, w') ->
  (12 <= Buffer.length buffer)%nat
  /\ memory w' = memory w
  /\ r = mkBeaconResponse
           (le_uint (list_slice (Buffer.contents w buffer) 0 8))
           (Buffer.mk (Buffer.arrayBuffer buffer) (Buffer.byteOffset buffer + 8) (12 - 8))
           (Buffer.mk (Buffer.arrayBuffer buffer) (Buffer.byteOffset buffer + 12)
              (Nat.min (12 + Z.to_nat (le_uint (list_slice (Buffer.contents w buffer) 0 8)))
                 (Buffer.length buffer) - 12)).
Proof.
  intros Hvalid Hrun.
  pose proof (parseBeaconResponse_returns_long _ _ _ _ Hrun) as Hlong.
  rewrite (parseBeaconResponse_long w buffer Hvalid Hlong) in Hrun.
  injection Hrun as <- <-. split; [exact Hlong | split; reflexivity].
Qed.

(** Nothing is copied.  The digest and the payload returned are views on the
    ArrayBuffer of the buffer parsed: whatever the memory holds later, the
    digest shows bytes 8..11 of the buffer and the payload shows the bytes
    from 12 on, as many as its length. *)
Theorem parseBeaconResponse_views_share_memory w buffer r w' :
  Buffer.valid w buffer ->
  parseBeaconResponse buffer w = (Return r, w') ->
  Buffer.arrayBuffer (forkDigest r) = Buffer.arrayBuffer buffer
  /\ Buffer.arrayBuffer (payload r) = Buffer.arrayBuffer buffer
  /\ forall later : World,
       Buffer.contents later (forkDigest r)
       = list_slice (Buffer.contents later buffer) 8 12
       /\ Buffer.contents later (payload r)
          = list_slice (Buffer.contents later buffer) 12
              (12 + Buffer.length (payload r)).
Proof.
  intros Hvalid Hrun.
  destruct (parseBeaconResponse_result _ _ _ _ Hvalid Hrun) as (Hlong & _ & ->).
  cbn [forkDigest payload Buffer.arrayBuffer Buffer.length].
  split; [reflexivity |]. split; [reflexivity |].
  intros later. split.
  - apply contents_subview; lia.
  - set (c := le_uint (list_slice (Buffer.contents w buffer) 0 8)).
    replace (12 + (Nat.min (12 + Z.to_nat c) (Buffer.length buffer) - 12))%nat
      with (Nat.min (12 + Z.to_nat c) (Buffer.length buffer)) by lia.
    apply contents_subview; lia.
Qed.

Lemma parseBeaconResponse_views_share_memory_witness :
  let w := world_of frame_exact in
  let buffer := buffer_of frame_exact in
  let r := mkBeaconResponse 3 (Buffer.mk 0 8 4) (Buffer.mk 0 12 3) in
  let w' := printed w [stdout "Chunk length: 3"; stdout "Fork digest: 0xdeadbeef";
                       stdout "Payload length: 3"] in
  let later := snd (Buffer_writeUInt8 buffer x77 13 w') in
  Buffer.valid w buffer
  /\ parseBeaconResponse buffer w = (Return r, w')
  /\ Buffer.contents later (payload r) = [x0a; x77; x0c]
  /\ Buffer.contents later (payload r)
     = list_slice (Buffer.contents later buffer) 12 (12 + Buffer.length (payload r)).
Proof.
  cbv zeta.
  assert (Hvalid : Buffer.valid (world_of frame_exact) (buffer_of frame_exact))
    by (apply valid_buffer_of; vm_compute; discriminate).
  assert (Hrun : parseBeaconResponse (buffer_of frame_exact) (world_of frame_exact)
                 = (Return (mkBeaconResponse 3 (Buffer.mk 0 8 4) (Buffer.mk 0 12 3)),
                    printed (world_of frame_exact)
                      [stdout "Chunk length: 3"; stdout "Fork digest: 0xdeadbeef";
                       stdout "Payload length: 3"]))
    by (vm_compute; reflexivity).
  split; [exact Hvalid |]. split; [exact Hrun |].
  split; [vm_compute; reflexivity |].
  destruct (parseBeaconResponse_views_share_memory _ _ _ _ Hvalid Hrun)
    as (_ & _ & Hlater).
  exact (proj2 (Hlater _)).
Defined.

(** What is returned is well formed: [chunkLen] is an unsigned 64-bit
    integer, the digest and the payload are valid views, the digest has four
    bytes, and the payload has at most [chunkLen] bytes and ends inside the
    buffer. *)
Theorem parseBeaconResponse_result_well_formed w buffer r w' :
  Buffer.valid w buffer ->
  parseBeaconResponse buffer w = (Return r, w') ->
  0 <= chunkLen r < 2 ^ 64
  /\ Buffer.valid w' (forkDigest r)
  /\ Buffer.length (forkDigest r) = 4%nat
  /\ Buffer.valid w' (payload r)
  /\ Z.of_nat (Buffer.length (payload r)) <= chunkLen r
  /\ (12 + Buffer.length (payload r) <= Buffer.length buffer)%nat.
Proof.
  intros Hvalid Hrun.
  destruct (parseBeaconResponse_result _ _ _ _ Hvalid Hrun) as (Hlong & Hmem & ->).
  destruct Hvalid as [Hin Hmax].
  assert (Hsame : forall b, Buffer.contents w' b = Buffer.contents w b)
    by (intros b; unfold Buffer.contents; rewrite Hmem; reflexivity).
  cbn [chunkLen forkDigest payload].
  set (c := le_uint (list_slice (Buffer.contents w buffer) 0 8)).
  assert (Hc : 0 <= c < 2 ^ 64).
  { split; [apply le_uint_nonneg |].
    pose proof (le_uint_bound (list_slice (Buffer.contents w buffer) 0 8)) as Hb.
    rewrite length_list_slice in Hb by lia. exact Hb. }
  unfold Buffer.valid. rewrite !Hsame.
  rewrite !contents_subview by lia.
  rewrite !length_list_slice by lia.
  cbn [Buffer.length]. unfold Buffer.kMaxLength in *.
  repeat split; lia.
Qed.

Lemma parseBeaconResponse_result_well_formed_witness :
  Buffer.valid (world_of frame_cut) (buffer_of frame_cut)
  /\ exists r w',
       parseBeaconResponse (buffer_of frame_cut) (world_of frame_cut) = (Return r, w')
       /\ 0 <= chunkLen r < 2 ^ 64
       /\ Buffer.valid w' (payload r)
       /\ Z.of_nat (Buffer.length (payload r)) <= chunkLen r.
Proof.
  assert (Hvalid : Buffer.valid (world_of frame_cut) (buffer_of frame_cut))
    by (apply valid_buffer_of; vm_compute; discriminate).
  split; [exact Hvalid |].
  eexists. eexists.
  assert (Hrun : parseBeaconResponse (buffer_of frame_cut) (world_of frame_cut)
                 = (Return (mkBeaconResponse 5 (Buffer.mk 0 8 4) (Buffer.mk 0 12 0)),
                    printed (world_of frame_cut)
                      [stdout "Chunk length: 5"; stdout "Fork digest: 0xdeadbeef";
                       stdout "Payload length: 0"]))
    by (vm_compute; reflexivity).
  split; [exact Hrun |].
  destruct (parseBeaconResponse_result_well_formed _ _ _ _ Hvalid Hrun)
    as (Hc & _ & _ & Hp & Hle & _).
  split; [exact Hc |]. split; [exact Hp | exact Hle].
Defined.

(** ** readSSZFile *)

Lemma readSSZFile_run fs filename w :
  readSSZFile fs filename w
  = let w1 := printed w [stdout ("Reading SSZ data from: " ++ filename)] in
    if existsSync fs filename then
      match readFileSync fs filename with
      | Return bytes =>
          (Return (Buffer.mk (List.length (memory w))
                     (List.length (fst (around fs filename)))
                     (List.length bytes)),
           printed
             (mkWorld
                (memory w
                 ++ [(fst (around fs filename) ++ bytes
                      ++ snd (around fs filename))%list])
                (console w1))
             [stdout ("Read " ++ decimal (Z.of_nat (List.length bytes))
                      ++ " bytes of SSZ data")])
      | Throw e => (Throw e, w1)
      end
    else (Throw (Error ("File not found: " ++ filename)), w1).
Proof.
  unfold readSSZFile. rewrite bind_log. cbv zeta.
  destruct (existsSync fs filename); cbn [negb]; [| reflexivity].
  unfold bind, lift, Buffer_alloc, console_log, ret, printed.
  destruct (readFileSync fs filename) as [bytes | e]; reflexivity.
Qed.

(** A failed read.  The call throws only when the path does not exist (the
    error is "File not found: <path>") or when [readFileSync] itself throws
    (its error is passed on); either way one line was logged and no byte of
    memory was added or changed. *)
Theorem readSSZFile_failure fs filename w e w' :
  readSSZFile fs filename w = (Throw e, w') ->
  w' = printed w [stdout ("Reading SSZ data from: " ++ filename)]
  /\ memory w' = memory w
  /\ (existsSync fs filename = false /\ e = Error ("File not found: " ++ filename)
      \/ existsSync fs filename = true /\ readFileSync fs filename = Throw e).
Proof.
  rewrite readSSZFile_run. cbv zeta.
  destruct (existsSync fs filename).
  - destruct (readFileSync fs filename) as [bytes | e'] eqn:Hread; [discriminate |].
    intros Hrun. injection Hrun as <- <-.
    split; [reflexivity |]. split; [reflexivity |]. right. split; reflexivity.
  - intros Hrun. injection Hrun as <- <-.
    split; [reflexivity |]. split; [reflexivity |]. left. split; reflexivity.
Qed.

Lemma readSSZFile_failure_witness :
  readSSZFile (sample_fs frame_exact) "missing.ssz" (world_of frame_tiny)
  = (Throw (Error "File not found: missing.ssz"),
     printed (world_of frame_tiny) [stdout "Reading SSZ data from: missing.ssz"])
  /\ memory (printed (world_of frame_tiny) [stdout "Reading SSZ data from: missing.ssz"])
     = memory (world_of frame_tiny)
  /\ existsSync (sample_fs frame_exact) "missing.ssz" = false.
Proof.
  assert (Hrun : readSSZFile (sample_fs frame_exact) "missing.ssz" (world_of frame_tiny)
                 = (Throw (Error "File not found: missing.ssz"),
                    printed (world_of frame_tiny)
                      [stdout "Reading SSZ data from: missing.ssz"]))
    by (vm_compute; reflexivity).
  split; [exact Hrun |].
  destruct (readSSZFile_failure _ _ _ _ _ Hrun) as (_ & Hmem & _).
  split; [exact Hmem | reflexivity].
Defined.

(** ** What the steps print *)

Section OnlyPrints.

Variable P : Output -> Prop.

Lemma op_ret {A} (a : A) : only_prints P (ret a).
Proof.
  intros w. exists []. split; [symmetry; apply printed_nil | constructor].
Qed.

Lemma op_throw {A} (e : JsError) : only_prints P (@throw A e).
Proof.
  intros w. exists []. split; [symmetry; apply printed_nil | constructor].
Qed.

Lemma op_lift {A} (c : Completion A) : only_prints P (lift c).
Proof.
  intros w. exists []. split; [symmetry; apply printed_nil | constructor].
Qed.

Lemma op_toString_hex b : only_prints P (Buffer.toString_hex b).
Proof.
  intros w. exists []. split; [symmetry; apply printed_nil | constructor].
Qed.

Lemma op_Buffer_bytes b : only_prints P (Buffer_bytes b).
Proof.
  intros w. exists []. split; [symmetry; apply printed_nil | constructor].
Qed.

Lemma op_console_log line : P (stdout line) -> only_prints P (console_log line).
Proof.
  intros Hline w. exists [stdout line]. split; [reflexivity |].
  constructor; [exact Hline | constructor].
Qed.

Lemma op_console_error line : P (stderr line) -> only_prints P (console_error line).
Proof.
  intros Hline w. exists [stderr line]. split; [reflexivity |].
  constructor; [exact Hline | constructor].
Qed.

Lemma op_bind {A B} (m : M A) (k : A -> M B) :
  only_prints P m -> (forall a, only_prints P (k a)) -> only_prints P (bind m k).
Proof.
  intros Hm Hk w. unfold bind.
  destruct (Hm w) as (lines & Hw & Hlines).
  destruct (m w) as [[a | e] w1]; cbn [snd] in *; subst w1.
  - destruct (Hk a (printed w lines)) as (lines' & Hw' & Hlines').
    exists (lines ++ lines')%list. rewrite Hw', printed_printed.
    split; [reflexivity | apply Forall_app; split; assumption].
  - exists lines. split; [reflexivity | exact Hlines].
Qed.

Lemma op_try_catch {A} (body : M A) (handler : JsError -> M A) :
  only_prints P body -> (forall e, only_prints P (handler e)) ->
  only_prints P (try_catch body handler).
Proof.
  intros Hb Hh w. unfold try_catch.
  destruct (Hb w) as (lines & Hw & Hlines).
  destruct (body w) as [[a | e] w1]; cbn [snd] in *; subst w1.
  - exists lines. split; [reflexivity | exact Hlines].
  - destruct (Hh e (printed w lines)) as (lines' & Hw' & Hlines').
    exists (lines ++ lines')%list. rewrite Hw', printed_printed.
    split; [reflexivity | apply Forall_app; split; assumption].
Qed.

End OnlyPrints.

Create HintDb prints.
#[export] Hint Resolve op_ret op_throw op_lift op_toString_hex op_Buffer_bytes
  op_console_log op_console_error op_bind op_try_catch : prints.
#[export] Hint Extern 1 (is_stdout (stdout _)) => exact I : prints.

Lemma op_getLightClientUpdateType ssz forkDigest :
  only_prints is_stdout (getLightClientUpdateType ssz forkDigest).
Proof.
  unfold getLightClientUpdateType, get_LightClientUpdate.
  destruct (electra ssz), (deneb ssz), (capella ssz); auto 20 with prints.
Qed.

Lemma op_displayUpdateInfo bits_toString update :
  only_prints is_stdout (displayUpdateInfo bits_toString update).
Proof.
  unfold displayUpdateInfo, Buffer_from_hex. cbv zeta.
  destruct (nextSyncCommittee update) as [committee |];
    [destruct (nth_error (pubkeys committee) 0) |]; auto 40 with prints.
Qed.

(** Schema selection and the report print on stdout only: whether they
    return or throw, the console after them is the console before them
    followed by lines that are all on stdout. *)
Theorem selection_and_report_print_stdout_only ssz forkDigest bits_toString update w :
  (exists lines,
     console (snd (getLightClientUpdateType ssz forkDigest w))
     = (console w ++ lines)%list
     /\ Forall is_stdout lines)
  /\ (exists lines,
        console (snd (displayUpdateInfo bits_toString update w))
        = (console w ++ lines)%list
        /\ Forall is_stdout lines).
Proof.
  split.
  - destruct (op_getLightClientUpdateType ssz forkDigest w) as (lines & -> & Hout).
    exists lines. split; [reflexivity | exact Hout].
  - destruct (op_displayUpdateInfo bits_toString update w) as (lines & -> & Hout).
    exists lines. split; [reflexivity | exact Hout].
Qed.

(** What the result of the check tells.  Whenever the call returns, its
    result is [false] exactly when a next sync committee is present and
    [hashTreeRoot] threw an error, and [true] exactly when there is no next
    sync committee or the root was computed; the lines it added to the
    console are all on stdout when the result is [true], and include one on
    stderr when it is [false]. *)
Theorem verifyNextSyncCommitteeProof_result update sszType w result w' :
  verifyNextSyncCommitteeProof update sszType w = (Return result, w') ->
  (result = false <->
   exists committee error,
     nextSyncCommittee update = Some committee
     /\ hashTreeRoot (Fields.nextSyncCommittee (fields sszType)) committee
        = Throw error)
  /\ (result = true <->
      nextSyncCommittee update = None
      \/ exists committee root,
           nextSyncCommittee update = Some committee
           /\ hashTreeRoot (Fields.nextSyncCommittee (fields sszType)) committee
              = Return root)
  /\ exists lines,
       console w' = (console w ++ lines)%list
       /\ (result = true -> Forall is_stdout lines)
       /\ (result = false -> exists line, In (stderr line) lines).
Proof.
  destruct (nextSyncCommittee update) as [committee |] eqn:Hsome.
  - destruct (hashTreeRoot (Fields.nextSyncCommittee (fields sszType)) committee)
      as [root | error] eqn:Hroot.
    + rewrite (verify_root _ _ _ _ _ Hsome Hroot).
      intros Hrun. injection Hrun as <- <-. split; [| split].
      * split; [discriminate |].
        intros (c & e & Hc & He). injection Hc as <-. rewrite Hroot in He.
        discriminate He.
      * split; [| reflexivity]. intros _. right. exists committee, root.
        split; [reflexivity | exact Hroot].
      * eexists. split; [reflexivity |]. split.
        -- intros _. repeat constructor.
        -- discriminate.
    + rewrite (verify_throw _ _ _ _ _ Hsome Hroot).
      intros Hrun. injection Hrun as <- <-. split; [| split].
      * split; [| reflexivity]. intros _. exists committee, error.
        split; [reflexivity | exact Hroot].
      * split; [discriminate |].
        intros [Hnone | (c & r & Hc & Hr)]; [discriminate Hnone |].
        injection Hc as <-. rewrite Hroot in Hr. discriminate Hr.
      * eexists. split; [reflexivity |]. split.
        -- discriminate.
        -- intros _. eexists. right. left. reflexivity.
  - rewrite (verify_absent _ _ _ Hsome).
    intros Hrun. injection Hrun as <- <-. split; [| split].
    + split; [discriminate |]. intros (c & e & Hc & _). discriminate Hc.
    + split; [| reflexivity]. intros _. left. reflexivity.
    + eexists. split; [reflexivity |]. split.
      * intros _. repeat constructor.
      * discriminate.
Qed.

Lemma verifyNextSyncCommitteeProof_result_witness :
  let run := verifyNextSyncCommitteeProof sample_update throwing_type (world_of []) in
  run = (Return false, snd run)
  /\ (exists committee error,
        nextSyncCommittee sample_update = Some committee
        /\ hashTreeRoot (Fields.nextSyncCommittee (fields throwing_type)) committee
           = Throw error)
  /\ exists lines,
       console (snd run) = (console (world_of []) ++ lines)%list
       /\ exists line, In (stderr line) lines.
Proof.
  cbv zeta.
  assert (Hrun : verifyNextSyncCommitteeProof sample_update throwing_type (world_of [])
                 = (Return false,
                    snd (verifyNextSyncCommitteeProof sample_update throwing_type
                           (world_of []))))
    by (vm_compute; reflexivity).
  split; [exact Hrun |].
  destruct (verifyNextSyncCommitteeProof_result _ _ _ _ _ Hrun)
    as (Hfalse & _ & lines & Hconsole & _ & Herr).
  split; [exact (proj1 Hfalse eq_refl) |].
  exists lines. split; [exact Hconsole | exact (Herr eq_refl)].
Defined.

(** ** More on the report *)

(** The report up to the point where the first public key is read. *)
Lemma displayUpdateInfo_no_first_pubkey bits_toString update committee w :
  nextSyncCommittee update = Some committee ->
  pubkeys committee = [] ->
  exists error lines,
    displayUpdateInfo bits_toString update w = (Throw error, printed w lines)
    /\ name error = "TypeError"
    /\ last lines (stdout EmptyString)
       = stdout ("Next sync committee branch length: "
                 ++ decimal (Z.of_nat (List.length (nextSyncCommitteeBranch update)))).
Proof.
  intros Hsome Hkeys.
  unfold displayUpdateInfo, Buffer_from_hex, bind, console_log, ret, throw.
  cbv zeta. rewrite Hsome, Hkeys. cbn [nth_error memory console].
  rewrite <- !app_assoc. cbn [app].
  eexists. eexists. split; [unfold printed; reflexivity |].
  split; reflexivity.
Qed.

(** The whole report, when there is a first public key to show. *)
Lemma displayUpdateInfo_returns bits_toString update w :
  (forall committee,
     nextSyncCommittee update = Some committee -> pubkeys committee <> []) ->
  exists lines,
    displayUpdateInfo bits_toString update w = (Return tt, printed w lines)
    /\ last lines (stdout EmptyString)
       = stdout ("Sync committee signature: 0x"
                 ++ String.substring 0 20
                      (hex (syncCommitteeSignature (syncAggregate update)))
                 ++ "...").
Proof.
  intros Hkeys.
  unfold displayUpdateInfo, Buffer_from_hex, bind, console_log, ret, throw.
  cbv zeta.
  destruct (nextSyncCommittee update) as [committee |].
  - specialize (Hkeys committee eq_refl).
    destruct (pubkeys committee) as [| pk rest] eqn:Hpk; [contradiction |].
    cbn [nth_error memory console]. rewrite <- !app_assoc. cbn [app].
    eexists. split; [unfold printed; reflexivity |]. reflexivity.
  - cbn [memory console]. rewrite <- !app_assoc. cbn [app].
    eexists. split; [unfold printed; reflexivity |]. reflexivity.
Qed.

(** A report is cut short in one case only: a next sync committee without
    public keys.  The error is the [TypeError] of [Buffer.from(undefined)],
    and the last line printed is the branch length: no participation is
    reported. *)
Theorem displayUpdateInfo_throws_without_first_pubkey bits_toString update w :
  ((exists error w', displayUpdateInfo bits_toString update w = (Throw error, w'))
   <-> exists committee,
         nextSyncCommittee update = Some committee /\ pubkeys committee = [])
  /\ forall error w',
       displayUpdateInfo bits_toString update w = (Throw error, w') ->
       name error = "TypeError"
       /\ exists lines,
            w' = printed w lines
            /\ last lines (stdout EmptyString)
               = stdout ("Next sync committee branch length: "
                         ++ decimal (Z.of_nat (List.length (nextSyncCommitteeBranch update)))).
Proof.
  assert (Hcases :
    (exists committee,
       nextSyncCommittee update = Some committee /\ pubkeys committee = [])
    \/ (forall committee,
          nextSyncCommittee update = Some committee -> pubkeys committee <> [])).
  { destruct (nextSyncCommittee update) as [committee |].
    - destruct (pubkeys committee) as [| pk rest] eqn:Hpk.
      + left. exists committee. split; [reflexivity | exact Hpk].
      + right. intros c Hc. injection Hc as <-. rewrite Hpk. discriminate.
    - right. intros c Hc. discriminate Hc. }
  destruct Hcases as [(committee & Hsome & Hkeys) | Hkeys].
  - destruct (displayUpdateInfo_no_first_pubkey bits_toString update committee w
                Hsome Hkeys) as (error & lines & Hrun & Hname & Hlast).
    split.
    + split.
      * intros _. exists committee. split; assumption.
      * intros _. exists error, (printed w lines). exact Hrun.
    + intros error' w' Hrun'. rewrite Hrun in Hrun'. injection Hrun' as <- <-.
      split; [exact Hname |]. exists lines. split; [reflexivity | exact Hlast].
  - destruct (displayUpdateInfo_returns bits_toString update w Hkeys)
      as (lines & Hrun & _).
    split.
    + split.
      * intros (error & w' & Hrun'). rewrite Hrun in Hrun'. discriminate Hrun'.
      * intros (committee & Hsome & Hnone). destruct (Hkeys committee Hsome Hnone).
    + intros error w' Hrun'. rewrite Hrun in Hrun'. discriminate Hrun'.
Qed.

Lemma hex_cons b rest : hex (b :: rest) = (hex_of_byte b ++ hex rest)%string.
Proof.
  unfold hex. cbn [map String.concat].
  destruct (map hex_of_byte rest) as [| h t]; reflexivity.
Qed.

(** The first [k] bytes make the first [2 k] hexadecimal digits. *)
Lemma substring_hex k bytes :
  String.substring 0 (2 * k) (hex bytes) = hex (firstn k bytes).
Proof.
  revert bytes. induction k as [| k IH]; intros bytes.
  - destruct bytes as [| b rest]; [reflexivity |].
    rewrite hex_cons. reflexivity.
  - replace (2 * S k)%nat with (S (S (2 * k))) by lia.
    destruct bytes as [| b rest]; [reflexivity |].
    cbn [firstn]. rewrite !hex_cons. unfold hex_of_byte.
    cbn [String.append String.substring]. rewrite IH. reflexivity.
Qed.

(** The signature is shown by its first ten bytes: the last line of a
    complete report is "Sync committee signature: 0x", the hexadecimal
    digits of at most ten bytes, and "...". *)
Theorem displayUpdateInfo_signature_prefix bits_toString update w :
  (forall committee,
     nextSyncCommittee update = Some committee -> pubkeys committee <> []) ->
  exists lines,
    displayUpdateInfo bits_toString update w = (Return tt, printed w lines)
    /\ last lines (stdout EmptyString)
       = stdout ("Sync committee signature: 0x"
                 ++ hex (firstn 10 (syncCommitteeSignature (syncAggregate update)))
                 ++ "...").
Proof.
  intros Hkeys.
  destruct (displayUpdateInfo_returns bits_toString update w Hkeys)
    as (lines & Hrun & Hlast).
  exists lines. split; [exact Hrun |].
  rewrite Hlast. change 20%nat with (2 * 10)%nat. rewrite substring_hex.
  reflexivity.
Qed.

Lemma displayUpdateInfo_signature_prefix_witness :
  (forall committee,
     nextSyncCommittee sample_update = Some committee -> pubkeys committee <> [])
  /\ exists lines,
       displayUpdateInfo sample_bits_toString sample_update (world_of [])
       = (Return tt, printed (world_of []) lines)
       /\ last lines (stdout EmptyString)
          = stdout "Sync committee signature: 0xc3c3c3c3c3c3c3c3c3c3...".
Proof.
  assert (Hkeys : forall committee,
            nextSyncCommittee sample_update = Some committee ->
            pubkeys committee <> []).
  { intros committee Hsome. injection Hsome as <-. discriminate. }
  split; [exact Hkeys |].
  exact (displayUpdateInfo_signature_prefix sample_bits_toString sample_update
           (world_of []) Hkeys).
Defined.

(** ** More on the participation count *)

Lemma popcount_byte_range b : 0 <= popcount_byte b <= 8.
Proof. destruct b; vm_compute; split; discriminate. Qed.

Lemma popcount_byte_zero b : popcount_byte b = 0 <-> b = x00.
Proof.
  split; [| intros ->; reflexivity].
  destruct b; vm_compute; intros H; first [reflexivity | discriminate H].
Qed.

Lemma popcount_byte_full b : popcount_byte b = 8 <-> b = xff.
Proof.
  split; [| intros ->; reflexivity].
  destruct b; vm_compute; intros H; first [reflexivity | discriminate H].
Qed.

(** The count lies between 0 and eight times the number of bytes; it is 0
    only when every byte is [00] and reaches the maximum only when every
    byte is [ff].  The bit length of the vector plays no part. *)
Theorem participation_bounds (syncBits : BitArray) :
  0 <= participation syncBits <= 8 * Z.of_nat (List.length (uint8Array syncBits))
  /\ (participation syncBits = 0 <-> Forall (eq x00) (uint8Array syncBits))
  /\ (participation syncBits = 8 * Z.of_nat (List.length (uint8Array syncBits))
      <-> Forall (eq xff) (uint8Array syncBits)).
Proof.
  rewrite participation_popcount.
  induction (uint8Array syncBits) as [| b rest IH].
  - cbn. repeat split; try lia; constructor.
  - cbn [popcount fold_right List.length]. fold (popcount rest).
    rewrite Nat2Z.inj_succ.
    pose proof (popcount_byte_range b) as Hb.
    destruct IH as (Hrange & Hzero & Hfull).
    split; [lia |]. split.
    + split.
      * intros Hsum. constructor.
        -- symmetry. apply popcount_byte_zero. lia.
        -- apply Hzero. lia.
      * intros Hall. inversion Hall as [| ? ? Hhead Htail]; subst.
        apply Hzero in Htail. change (popcount_byte x00) with 0. lia.
    + split.
      * intros Hsum. constructor.
        -- symmetry. apply popcount_byte_full. lia.
        -- apply Hfull. lia.
      * intros Hall. inversion Hall as [| ? ? Hhead Htail]; subst.
        apply Hfull in Htail. change (popcount_byte xff) with 8. lia.
Qed.

(** ** main *)

Lemma skipn2_nth_error (argv : list string) filename :
  (exists rest, skipn 2 argv = filename :: rest) <-> nth_error argv 2 = Some filename.
Proof.
  destruct argv as [| a0 [| a1 [| a2 rest]]]; cbn [skipn nth_error]; split;
    try (intros (r & H); discriminate H); try discriminate.
  - intros (r & H). injection H as -> _. reflexivity.
  - intros H. injection H as ->. exists rest. reflexivity.
Qed.

Lemma readSSZFile_returns fs filename w buffer w1 :
  readSSZFile fs filename w = (Return buffer, w1) ->
  exists bytes,
    existsSync fs filename = true
    /\ readFileSync fs filename = Return bytes
    /\ Buffer.length buffer = List.length bytes
    /\ console w1
       = (console w
          ++ [stdout ("Reading SSZ data from: " ++ filename);
              stdout ("Read " ++ decimal (Z.of_nat (List.length bytes))
                      ++ " bytes of SSZ data")])%list
    /\ Buffer.contents w1 buffer = bytes.
Proof.
  rewrite readSSZFile_run. cbv zeta.
  destruct (existsSync fs filename); [| discriminate].
  destruct (readFileSync fs filename) as [bytes | e]; [| discriminate].
  intros Hrun. injection Hrun as <- <-. exists bytes.
  split; [reflexivity |]. split; [reflexivity |]. split; [reflexivity |].
  split.
  - unfold printed. cbn [console]. rewrite <- app_assoc. reflexivity.
  - unfold Buffer.contents, printed.
    cbn [memory Buffer.arrayBuffer Buffer.byteOffset Buffer.length].
    rewrite nth_middle, skipn_app, skipn_all, Nat.sub_diag.
    cbn [app skipn].
    rewrite <- (Nat.add_0_r (List.length bytes)), firstn_app_2.
    cbn [firstn]. apply app_nil_r.
Qed.

(** The [catch] block ends in exit status 1, after "Error: <message>" and
    maybe more lines, all on stderr. *)
Lemma main_catch_run error_code error_stack error w :
  exists lines,
    main_catch error_code error_stack error w
    = (Return 1, printed w (stderr ("Error: " ++ message error) :: lines))
    /\ Forall (fun o => ~ is_stdout o) lines.
Proof.
  unfold main_catch, bind, console_error, ret.
  destruct (error_code error) as [code |];
    [destruct (String.eqb code "MODULE_NOT_FOUND") |];
    (destruct (error_stack error) as [stack |]);
    cbn [memory console]; rewrite <- ?app_assoc; cbn [app];
    (eexists; split; [unfold printed; reflexivity |]);
    repeat constructor; intros H; exact H.
Qed.

Lemma main_try_file_run fs ssz bits_toString argv filename rest w
    buffer w1 response w2 schema w3 update w5 isValid w6 :
  skipn 2 argv = filename :: rest ->
  stages fs ssz bits_toString filename w
    buffer w1 response w2 schema w3 update w5 isValid w6 ->
  main_try fs ssz bits_toString argv w
  = (Return (if isValid then 0 else 1), printed w6 [verdict_line isValid]).
Proof.
  intros Hargs (Hread & Hparse & Htype & Hdecode & Hshow & Hverify).
  unfold main_try. cbv zeta. rewrite Hargs.
  rewrite (bind_return _ _ _ _ _ Hread).
  rewrite (bind_return _ _ _ _ _ Hparse).
  rewrite (bind_return _ _ _ _ _ Htype).
  rewrite bind_log.
  unfold bind at 1. unfold Buffer_bytes at 1. rewrite contents_printed.
  unfold bind at 1. unfold lift at 1. rewrite Hdecode.
  rewrite bind_log, printed_printed. cbn [app].
  rewrite (bind_return _ _ _ _ _ Hshow).
  rewrite (bind_return _ _ _ _ _ Hverify).
  destruct isValid; reflexivity.
Qed.

Lemma main_try_file_returns fs ssz bits_toString argv filename rest w code w' :
  skipn 2 argv = filename :: rest ->
  main_try fs ssz bits_toString argv w = (Return code, w') ->
  exists buffer w1 response w2 schema w3 update w5 isValid w6,
    stages fs ssz bits_toString filename w
      buffer w1 response w2 schema w3 update w5 isValid w6
    /\ code = (if isValid then 0 else 1)
    /\ w' = printed w6 [verdict_line isValid].
Proof.
  intros Hargs. unfold main_try. cbv zeta. rewrite Hargs.
  unfold bind at 1.
  destruct (readSSZFile fs filename w) as [[buffer | e] w1] eqn:Hread;
    [| discriminate].
  unfold bind at 1.
  destruct (parseBeaconResponse buffer w1) as [[response | e] w2] eqn:Hparse;
    [| discriminate].
  unfold bind at 1.
  destruct (getLightClientUpdateType ssz (forkDigest response) w2)
    as [[schema | e] w3] eqn:Htype; [| discriminate].
  rewrite bind_log.
  unfold bind at 1. unfold Buffer_bytes at 1. rewrite contents_printed.
  unfold bind at 1. unfold lift at 1.
  destruct (deserialize schema (Buffer.contents w3 (payload response)))
    as [update | e] eqn:Hdecode; [| discriminate].
  rewrite bind_log, printed_printed. cbn [app].
  unfold bind at 1.
  destruct (displayUpdateInfo bits_toString update _) as [[[] | e] w5] eqn:Hshow;
    [| discriminate].
  unfold bind at 1.
  destruct (verifyNextSyncCommitteeProof update schema w5)
    as [[isValid | e] w6] eqn:Hverify; [| discriminate].
  intros Hrun.
  exists buffer, w1, response, w2, schema, w3, update, w5, isValid, w6.
  split; [repeat split; assumption |].
  destruct isValid; injection Hrun as <- <-; split; reflexivity.
Qed.

Lemma main_try_usage fs ssz bits_toString argv w :
  skipn 2 argv = [] ->
  exists lines,
    main_try fs ssz bits_toString argv w = (Return 1, printed w lines)
    /\ Forall is_stdout lines
    /\ hd_error lines = Some (stdout "Usage: node chainsafe_ssz_decoder.js <ssz_file>").
Proof.
  intros Hargs. unfold main_try. cbv zeta. rewrite Hargs.
  repeat (rewrite bind_log; cbv beta). unfold ret.
  rewrite !printed_printed. cbn [app].
  eexists. split; [reflexivity |]. split; [repeat constructor | reflexivity].
Qed.


Lemma getLightClientUpdateType_known ssz forkDigest w schema :
  hd_error (known_schemas ssz) = Some schema ->
  exists w3,
    getLightClientUpdateType ssz forkDigest w = (Return schema, w3)
    /\ memory w3 = memory w.
Proof.
  rewrite getLightClientUpdateType_run. cbv zeta. unfold known_schemas.
  destruct (electra ssz), (deneb ssz), (capella ssz); cbn; intros Hhd;
    try discriminate Hhd; injection Hhd as <-;
    eexists; split; reflexivity.
Qed.

(** The bytes handed to [deserialize], for a file read into a fresh buffer. *)
Lemma payload_of_file w1 buffer bytes response w2 w3 :
  Buffer.contents w1 buffer = bytes ->
  Buffer.length buffer = List.length bytes ->
  Z.of_nat (List.length bytes) <= Buffer.kMaxLength ->
  parseBeaconResponse buffer w1 = (Return response, w2) ->
  memory w3 = memory w2 ->
  Buffer.contents w3 (payload response)
  = list_slice bytes 12 (12 + Z.to_nat (le_uint (list_slice bytes 0 8))).
Proof.
  intros Hcontents Hlength Hmax Hparse Hmem.
  assert (Hvalid : Buffer.valid w1 buffer).
  { split; [rewrite Hcontents; symmetry; exact Hlength | rewrite Hlength; exact Hmax]. }
  destruct (parseBeaconResponse_result _ _ _ _ Hvalid Hparse) as (Hlong & Hmem2 & ->).
  cbn [payload].
  assert (Hsame : forall b, Buffer.contents w3 b = Buffer.contents w1 b)
    by (intros b; unfold Buffer.contents; rewrite Hmem, Hmem2; reflexivity).
  rewrite Hsame, contents_subview by lia.
  rewrite Hcontents, Hlength. apply list_slice_clamp.
Qed.

(** The only exit statuses are 0 and 1: whenever [main] ends with a status,
    through [process.exit] or by running to its end, that status is 0 or 1. *)
Theorem main_status_zero_or_one fs ssz bits_toString error_code error_stack argv w
    code w' :
  main fs ssz bits_toString error_code error_stack argv w = (Return code, w') ->
  code = 0 \/ code = 1.
Proof.
  unfold main, try_catch.
  destruct (main_try fs ssz bits_toString argv w) as [[code0 | e] w1] eqn:Htry.
  - intros Hrun. injection Hrun as <- _.
    destruct (skipn 2 argv) as [| filename rest] eqn:Hargs.
    + destruct (main_try_usage fs ssz bits_toString argv w Hargs)
        as (lines & Hrun & _).
      rewrite Hrun in Htry. injection Htry as <- _. right. reflexivity.
    + destruct (main_try_file_returns _ _ _ _ _ _ _ _ _ Hargs Htry)
        as (? & ? & ? & ? & ? & ? & ? & ? & isValid & ? & _ & -> & _).
      destruct isValid; [left | right]; reflexivity.
  - destruct (main_catch_run error_code error_stack e w1) as (lines & Hrun & _).
    rewrite Hrun. intros Hcode. injection Hcode as <- _. right. reflexivity.
Qed.

Lemma main_status_zero_or_one_witness :
  let run := main (sample_fs frame_tiny) sample_ssz sample_bits_toString
               sample_code sample_stack sample_argv (mkWorld [] []) in
  run = (Return 1, snd run) /\ (1 = 0 \/ 1 = 1).
Proof.
  cbv zeta.
  assert (Hrun : main (sample_fs frame_tiny) sample_ssz sample_bits_toString
                   sample_code sample_stack sample_argv (mkWorld [] [])
                 = (Return 1,
                    snd (main (sample_fs frame_tiny) sample_ssz sample_bits_toString
                           sample_code sample_stack sample_argv (mkWorld [] []))))
    by (vm_compute; reflexivity).
  split; [exact Hrun |].
  exact (main_status_zero_or_one _ _ _ _ _ _ _ _ _ Hrun).
Defined.



(** Without a file argument the program prints its usage on stdout and ends
    with status 1; the file system plays no part. *)
Theorem main_usage fs ssz bits_toString error_code error_stack argv w :
  (List.length argv <= 2)%nat ->
  exists lines,
    main fs ssz bits_toString error_code error_stack argv w
    = (Return 1, printed w lines)
    /\ Forall is_stdout lines
    /\ hd_error lines = Some (stdout "Usage: node chainsafe_ssz_decoder.js <ssz_file>")
    /\ forall fs' ssz',
         main fs' ssz' bits_toString error_code error_stack argv w
         = (Return 1, printed w lines).
Proof.
  intros Hshort.
  assert (Hargs : skipn 2 argv = []) by (apply skipn_all2; exact Hshort).
  destruct (main_try_usage fs ssz bits_toString argv w Hargs)
    as (lines & Hrun & Hout & Hhd).
  exists lines. unfold main, try_catch. rewrite Hrun.
  split; [reflexivity |]. split; [exact Hout |]. split; [exact Hhd |].
  intros fs' ssz'.
  assert (Hsame : main_try fs' ssz' bits_toString argv w
                  = main_try fs ssz bits_toString argv w)
    by (unfold main_try; cbv zeta; rewrite Hargs; reflexivity).
  rewrite Hsame, Hrun. reflexivity.
Qed.

Lemma main_usage_witness :
  (List.length ["node"; "chainsafe_ssz_decoder.js"] <= 2)%nat
  /\ exists lines,
       main (sample_fs frame_exact) sample_ssz sample_bits_toString
         sample_code sample_stack ["node"; "chainsafe_ssz_decoder.js"] (mkWorld [] [])
       = (Return 1, printed (mkWorld [] []) lines)
       /\ Forall is_stdout lines.
Proof.
  assert (Hshort : (List.length ["node"; "chainsafe_ssz_decoder.js"] <= 2)%nat)
    by (simpl; lia).
  split; [exact Hshort |].
  destruct (main_usage (sample_fs frame_exact) sample_ssz sample_bits_toString
              sample_code sample_stack _ (mkWorld [] []) Hshort)
    as (lines & Hrun & Hout & _).
  exists lines. split; [exact Hrun | exact Hout].
Defined.

Lemma main_try_read_throws fs ssz bits_toString argv filename rest w e w1 :
  skipn 2 argv = filename :: rest ->
  readSSZFile fs filename w = (Throw e, w1) ->
  main_try fs ssz bits_toString argv w = (Throw e, w1).
Proof.
  intros Hargs Hread. unfold main_try. cbv zeta. rewrite Hargs.
  apply bind_throw. exact Hread.
Qed.

(** A file that does not exist.  The program logs the read attempt, reports
    "Error: File not found: <path>" on stderr, adds nothing but stderr lines
    after it, ends with status 1 and leaves the memory as it was. *)
Theorem main_missing_file fs ssz bits_toString error_code error_stack argv filename w :
  nth_error argv 2 = Some filename ->
  existsSync fs filename = false ->
  exists lines,
    main fs ssz bits_toString error_code error_stack argv w
    = (Return 1,
       printed w
         (stdout ("Reading SSZ data from: " ++ filename)
          :: stderr ("Error: File not found: " ++ filename) :: lines))
    /\ Forall (fun o => ~ is_stdout o) lines.
Proof.
  intros Hargv Hmissing.
  apply skipn2_nth_error in Hargv. destruct Hargv as (rest & Hargs).
  assert (Hread : readSSZFile fs filename w
                  = (Throw (Error ("File not found: " ++ filename)),
                     printed w [stdout ("Reading SSZ data from: " ++ filename)]))
    by (rewrite readSSZFile_run, Hmissing; reflexivity).
  unfold main, try_catch.
  rewrite (main_try_read_throws _ _ _ _ _ _ _ _ _ Hargs Hread).
  destruct (main_catch_run error_code error_stack
              (Error ("File not found: " ++ filename))
              (printed w [stdout ("Reading SSZ data from: " ++ filename)]))
    as (lines & Hrun & Herr).
  exists lines. rewrite Hrun, printed_printed. split; [reflexivity | exact Herr].
Qed.

Lemma main_missing_file_witness :
  nth_error ["node"; "chainsafe_ssz_decoder.js"; "missing.ssz"] 2 = Some "missing.ssz"
  /\ existsSync (sample_fs frame_exact) "missing.ssz" = false
  /\ exists lines,
       main (sample_fs frame_exact) sample_ssz sample_bits_toString
         sample_code sample_stack
         ["node"; "chainsafe_ssz_decoder.js"; "missing.ssz"] (mkWorld [] [])
       = (Return 1,
          printed (mkWorld [] [])
            (stdout "Reading SSZ data from: missing.ssz"
             :: stderr "Error: File not found: missing.ssz" :: lines)).
Proof.
  split; [reflexivity |]. split; [reflexivity |].
  destruct (main_missing_file (sample_fs frame_exact) sample_ssz sample_bits_toString
              sample_code sample_stack
              ["node"; "chainsafe_ssz_decoder.js"; "missing.ssz"] "missing.ssz"
              (mkWorld [] []) eq_refl eq_refl) as (lines & Hrun & _).
  exists lines. exact Hrun.
Defined.

(** A file shorter than a header.  The file is read, the parser refuses
    it, and the program ends with status 1 after reporting "Error: Response
    too short" on stderr: the console gets the two lines of the read, that
    error, and stderr lines only, so nothing is decoded or displayed. *)
Theorem main_short_file fs ssz bits_toString error_code error_stack argv filename
    bytes w :
  nth_error argv 2 = Some filename ->
  existsSync fs filename = true ->
  readFileSync fs filename = Return bytes ->
  (List.length bytes < 12)%nat ->
  fst (main fs ssz bits_toString error_code error_stack argv w) = Return 1
  /\ exists lines,
       console (snd (main fs ssz bits_toString error_code error_stack argv w))
       = (console w
          ++ stdout ("Reading SSZ data from: " ++ filename)
          :: stdout ("Read " ++ decimal (Z.of_nat (List.length bytes))
                     ++ " bytes of SSZ data")
          :: stderr "Error: Response too short" :: lines)%list
       /\ Forall (fun o => ~ is_stdout o) lines.
Proof.
  intros Hargv Hexists Hbytes Hshort.
  apply skipn2_nth_error in Hargv. destruct Hargv as (rest & Hargs).
  assert (Hfull : exists lines w1,
            main fs ssz bits_toString error_code error_stack argv w = (Return 1, w1)
            /\ console w1
               = (console w
                  ++ stdout ("Reading SSZ data from: " ++ filename)
                  :: stdout ("Read " ++ decimal (Z.of_nat (List.length bytes))
                             ++ " bytes of SSZ data")
                  :: stderr "Error: Response too short" :: lines)%list
            /\ Forall (fun o => ~ is_stdout o) lines).
  { unfold main, try_catch, main_try. cbv zeta. rewrite Hargs.
    unfold bind at 1. rewrite readSSZFile_run, Hexists, Hbytes. cbv zeta.
    unfold bind at 1. unfold parseBeaconResponse. cbn [Buffer.length].
    destruct (Z.ltb_spec (Z.of_nat (List.length bytes)) 12) as [_ | Hlong]; [| lia].
    unfold throw.
    match goal with
    | |- context [main_catch _ _ ?e ?w1] =>
        destruct (main_catch_run error_code error_stack e w1) as (lines & Hrun & Herr)
    end.
    rewrite Hrun. exists lines. eexists. split; [reflexivity |].
    split; [| exact Herr].
    unfold printed. cbn [memory console message Error].
    rewrite <- !app_assoc. reflexivity. }
  destruct Hfull as (lines & w1 & Hrun & Hconsole & Herr).
  rewrite Hrun. cbn [fst snd]. split; [reflexivity |].
  exists lines. split; [exact Hconsole | exact Herr].
Qed.

Lemma main_short_file_witness :
  nth_error sample_argv 2 = Some "light_client_update.ssz"
  /\ existsSync (sample_fs frame_tiny) "light_client_update.ssz" = true
  /\ readFileSync (sample_fs frame_tiny) "light_client_update.ssz" = Return frame_tiny
  /\ (List.length frame_tiny < 12)%nat
  /\ fst (main (sample_fs frame_tiny) sample_ssz sample_bits_toString
            sample_code sample_stack sample_argv (mkWorld [] []))
     = Return 1
  /\ exists lines,
       console (snd (main (sample_fs frame_tiny) sample_ssz sample_bits_toString
                       sample_code sample_stack sample_argv (mkWorld [] [])))
       = (stdout "Reading SSZ data from: light_client_update.ssz"
          :: stdout "Read 3 bytes of SSZ data"
          :: stderr "Error: Response too short" :: lines).
Proof.
  assert (Hshort : (List.length frame_tiny < 12)%nat) by (simpl; lia).
  split; [reflexivity |]. split; [reflexivity |]. split; [reflexivity |].
  split; [exact Hshort |].
  destruct (main_short_file (sample_fs frame_tiny) sample_ssz sample_bits_toString
              sample_code sample_stack sample_argv "light_client_update.ssz"
              frame_tiny (mkWorld [] []) eq_refl eq_refl eq_refl Hshort)
    as (Hcode & lines & Hconsole & _).
  split; [exact Hcode |]. exists lines. exact Hconsole.
Defined.

Lemma front_stages fs ssz bits_toString filename bytes schema update w :
  existsSync fs filename = true ->
  readFileSync fs filename = Return bytes ->
  Z.of_nat (List.length bytes) <= Buffer.kMaxLength ->
  (12 <= List.length bytes)%nat ->
  hd_error (known_schemas ssz) = Some schema ->
  deserialize schema
    (list_slice bytes 12 (12 + Z.to_nat (le_uint (list_slice bytes 0 8))))
  = Return update ->
  (forall committee,
     nextSyncCommittee update = Some committee -> pubkeys committee <> []) ->
  exists buffer w1 response w2 w3 w5,
    readSSZFile fs filename w = (Return buffer, w1)
    /\ parseBeaconResponse buffer w1 = (Return response, w2)
    /\ getLightClientUpdateType ssz (forkDigest response) w2 = (Return schema, w3)
    /\ deserialize schema (Buffer.contents w3 (payload response)) = Return update
    /\ displayUpdateInfo bits_toString update
         (printed w3
            [stdout (nl ++ "=== Decoding Light Client Update with SSZ Library ===");
             stdout "✅ Successfully decoded Light Client Update!"])
       = (Return tt, w5).
Proof.
  intros Hexists Hbytes Hmax Hlong Hhd Hdecode Hkeys.
  destruct (readSSZFile fs filename w) as [[buffer | e] w1] eqn:Hread.
  2: { rewrite readSSZFile_run, Hexists, Hbytes in Hread. discriminate Hread. }
  destruct (readSSZFile_returns _ _ _ _ _ Hread)
    as (bytes' & _ & Hbytes' & Hbuffer & _ & Hcontents).
  rewrite Hbytes in Hbytes'. injection Hbytes' as <-.
  assert (Hlength : Buffer.length buffer = List.length bytes)
    by (rewrite Hbuffer; reflexivity).
  assert (Hvalid : Buffer.valid w1 buffer).
  { split; [rewrite Hcontents; symmetry; exact Hlength
           | rewrite Hlength; exact Hmax]. }
  assert (Hlong' : (12 <= Buffer.length buffer)%nat) by lia.
  pose proof (parseBeaconResponse_long w1 buffer Hvalid Hlong') as Hparse.
  cbv zeta in Hparse.
  match type of Hparse with _ = (Return ?r, ?w) =>
    set (response := r) in *; set (w2 := w) in * end.
  destruct (getLightClientUpdateType_known ssz (forkDigest response) w2 schema Hhd)
    as (w3 & Htype & Hmem3).
  rewrite <- (payload_of_file _ _ _ _ _ _ Hcontents Hlength Hmax Hparse Hmem3)
    in Hdecode.
  destruct (displayUpdateInfo_returns bits_toString update
              (printed w3
                 [stdout (nl ++ "=== Decoding Light Client Update with SSZ Library ===");
                  stdout "✅ Successfully decoded Light Client Update!"]) Hkeys)
    as (lines & Hshow & _).
  exists buffer, w1, response, w2, w3. eexists.
  repeat split; eassumption.
Qed.

(** A failed check is not an error.  When everything up to the check works
    and [hashTreeRoot] throws, the program ends with status 1, the error is
    on stderr as printed by the check, and the last line, on stdout, is the
    verification verdict: the [catch] block of [main] is not entered. *)
Theorem main_verification_failed fs ssz bits_toString error_code error_stack argv
    filename bytes schema update committee error w :
  nth_error argv 2 = Some filename ->
  existsSync fs filename = true ->
  readFileSync fs filename = Return bytes ->
  Z.of_nat (List.length bytes) <= Buffer.kMaxLength ->
  (12 <= List.length bytes)%nat ->
  hd_error (known_schemas ssz) = Some schema ->
  deserialize schema
    (list_slice bytes 12 (12 + Z.to_nat (le_uint (list_slice bytes 0 8))))
  = Return update ->
  nextSyncCommittee update = Some committee ->
  pubkeys committee <> [] ->
  hashTreeRoot (Fields.nextSyncCommittee (fields schema)) committee = Throw error ->
  exists w',
    main fs ssz bits_toString error_code error_stack argv w = (Return 1, w')
    /\ last (console w') (stdout EmptyString)
       = stdout (nl ++ "❌ Light client update verification failed!")
    /\ In (stderr ("❌ Error verifying sync committee proof: " ++ message error))
          (console w').
Proof.
  intros Hargv Hexists Hbytes Hmax Hlong Hhd Hdecode Hsome Hkeys Hthrow.
  apply skipn2_nth_error in Hargv. destruct Hargv as (rest & Hargs).
  assert (Hkeys' : forall c, nextSyncCommittee update = Some c -> pubkeys c <> []).
  { intros c Hc. rewrite Hsome in Hc. injection Hc as <-. exact Hkeys. }
  destruct (front_stages fs ssz bits_toString filename bytes schema update w
              Hexists Hbytes Hmax Hlong Hhd Hdecode Hkeys')
    as (buffer & w1 & response & w2 & w3 & w5 & Hread & Hparse & Htype
        & Hdecode' & Hshow).
  pose proof (verify_throw update schema w5 committee error Hsome Hthrow) as Hverify.
  unfold main, try_catch.
  rewrite (main_try_file_run fs ssz bits_toString argv filename rest w
             buffer w1 response w2 schema w3 update w5 false _ Hargs
             (conj Hread (conj Hparse (conj Htype (conj Hdecode' (conj Hshow Hverify)))))).
  eexists. split; [reflexivity |].
  rewrite printed_printed. unfold printed. cbn [console app verdict_line].
  split.
  - change [verifying_line;
            stderr ("❌ Error verifying sync committee proof: " ++ message error);
            stdout (nl ++ "❌ Light client update verification failed!")]
      with ([verifying_line;
             stderr ("❌ Error verifying sync committee proof: " ++ message error)]
            ++ [stdout (nl ++ "❌ Light client update verification failed!")])%list.
    rewrite app_assoc. apply last_last.
  - apply in_or_app. right. right. left. reflexivity.
Qed.

Lemma main_verification_failed_witness :
  nth_error sample_argv 2 = Some "light_client_update.ssz"
  /\ existsSync (sample_fs frame_exact) "light_client_update.ssz" = true
  /\ readFileSync (sample_fs frame_exact) "light_client_update.ssz" = Return frame_exact
  /\ Z.of_nat (List.length frame_exact) <= Buffer.kMaxLength
  /\ (12 <= List.length frame_exact)%nat
  /\ hd_error (known_schemas unhashable_ssz) = Some unhashable_type
  /\ deserialize unhashable_type
       (list_slice frame_exact 12
          (12 + Z.to_nat (le_uint (list_slice frame_exact 0 8))))
     = Return sample_update
  /\ hashTreeRoot (Fields.nextSyncCommittee (fields unhashable_type))
       (mkSyncCommittee (repeat (repeat xa1 48) 512) (repeat xa2 48))
     = Throw (Error "Invalid value")
  /\ exists w',
       main (sample_fs frame_exact) unhashable_ssz sample_bits_toString
         sample_code sample_stack sample_argv (mkWorld [] [])
       = (Return 1, w')
       /\ last (console w') (stdout EmptyString)
          = stdout (nl ++ "❌ Light client update verification failed!")
       /\ In (stderr "❌ Error verifying sync committee proof: Invalid value")
             (console w').
Proof.
  assert (Hmax : Z.of_nat (List.length frame_exact) <= Buffer.kMaxLength)
    by (vm_compute; discriminate).
  assert (Hlong : (12 <= List.length frame_exact)%nat) by (simpl; lia).
  split; [reflexivity |]. split; [reflexivity |]. split; [reflexivity |].
  split; [exact Hmax |]. split; [exact Hlong |]. split; [reflexivity |].
  split; [reflexivity |]. split; [reflexivity |].
  exact (main_verification_failed (sample_fs frame_exact) unhashable_ssz
           sample_bits_toString sample_code sample_stack sample_argv
           "light_client_update.ssz" frame_exact unhashable_type sample_update
           (mkSyncCommittee (repeat (repeat xa1 48) 512) (repeat xa2 48))
           (Error "Invalid value") (mkWorld [] [])
           eq_refl eq_refl eq_refl Hmax Hlong eq_refl eq_refl eq_refl
           ltac:(discriminate) eq_refl).
Defined.

(** ** A payload that does not decode *)

Lemma front_three fs ssz filename bytes schema w :
  existsSync fs filename = true ->
  readFileSync fs filename = Return bytes ->
  Z.of_nat (List.length bytes) <= Buffer.kMaxLength ->
  (12 <= List.length bytes)%nat ->
  hd_error (known_schemas ssz) = Some schema ->
  exists buffer w1 response w2 w3,
    readSSZFile fs filename w = (Return buffer, w1)
    /\ parseBeaconResponse buffer w1 = (Return response, w2)
    /\ getLightClientUpdateType ssz (forkDigest response) w2 = (Return schema, w3)
    /\ Buffer.contents w3 (payload response)
       = list_slice bytes 12 (12 + Z.to_nat (le_uint (list_slice bytes 0 8))).
Proof.
  intros Hexists Hbytes Hmax Hlong Hhd.
  destruct (readSSZFile fs filename w) as [[buffer | e] w1] eqn:Hread.
  2: { rewrite readSSZFile_run, Hexists, Hbytes in Hread. discriminate Hread. }
  destruct (readSSZFile_returns _ _ _ _ _ Hread)
    as (bytes' & _ & Hbytes' & Hbuffer & _ & Hcontents).
  rewrite Hbytes in Hbytes'. injection Hbytes' as <-.
  assert (Hlength : Buffer.length buffer = List.length bytes)
    by (rewrite Hbuffer; reflexivity).
  assert (Hvalid : Buffer.valid w1 buffer).
  { split; [rewrite Hcontents; symmetry; exact Hlength
           | rewrite Hlength; exact Hmax]. }
  assert (Hlong' : (12 <= Buffer.length buffer)%nat) by lia.
  pose proof (parseBeaconResponse_long w1 buffer Hvalid Hlong') as Hparse.
  cbv zeta in Hparse.
  match type of Hparse with _ = (Return ?r, ?w) =>
    set (response := r) in *; set (w2 := w) in * end.
  destruct (getLightClientUpdateType_known ssz (forkDigest response) w2 schema Hhd)
    as (w3 & Htype & Hmem3).
  exists buffer, w1, response, w2, w3.
  split; [reflexivity |]. split; [exact Hparse |]. split; [exact Htype |].
  exact (payload_of_file _ _ _ _ _ _ Hcontents Hlength Hmax Hparse Hmem3).
Qed.

(** A decode error ends the run before any report.  When the fork's type
    refuses the payload (the bytes [[12, 12 + chunkLen)] of the file), the
    program ends with status 1; after the line that announces the decoding
    come "Error: <message>" on stderr and stderr lines only, so neither the
    report nor the check has run. *)
Theorem main_decode_error fs ssz bits_toString error_code error_stack argv
    filename bytes schema error w :
  nth_error argv 2 = Some filename ->
  existsSync fs filename = true ->
  readFileSync fs filename = Return bytes ->
  Z.of_nat (List.length bytes) <= Buffer.kMaxLength ->
  (12 <= List.length bytes)%nat ->
  hd_error (known_schemas ssz) = Some schema ->
  deserialize schema
    (list_slice bytes 12 (12 + Z.to_nat (le_uint (list_slice bytes 0 8))))
  = Throw error ->
  exists buffer w1 response w2 w3 lines,
    readSSZFile fs filename w = (Return buffer, w1)
    /\ parseBeaconResponse buffer w1 = (Return response, w2)
    /\ getLightClientUpdateType ssz (forkDigest response) w2 = (Return schema, w3)
    /\ main fs ssz bits_toString error_code error_stack argv w
       = (Return 1,
          printed w3
            (stdout (nl ++ "=== Decoding Light Client Update with SSZ Library ===")
             :: stderr ("Error: " ++ message error) :: lines))
    /\ Forall (fun o => ~ is_stdout o) lines.
Proof.
  intros Hargv Hexists Hbytes Hmax Hlong Hhd Hdecode.
  apply skipn2_nth_error in Hargv. destruct Hargv as (rest & Hargs).
  destruct (front_three fs ssz filename bytes schema w Hexists Hbytes Hmax Hlong Hhd)
    as (buffer & w1 & response & w2 & w3 & Hread & Hparse & Htype & Hpayload).
  rewrite <- Hpayload in Hdecode.
  assert (Htry : main_try fs ssz bits_toString argv w
                 = (Throw error,
                    printed w3
                      [stdout (nl ++ "=== Decoding Light Client Update with SSZ Library ===")])).
  { unfold main_try. cbv zeta. rewrite Hargs.
    rewrite (bind_return _ _ _ _ _ Hread).
    rewrite (bind_return _ _ _ _ _ Hparse).
    rewrite (bind_return _ _ _ _ _ Htype).
    rewrite bind_log.
    unfold bind at 1. unfold Buffer_bytes at 1. rewrite contents_printed.
    unfold bind at 1. unfold lift at 1. rewrite Hdecode. reflexivity. }
  destruct (main_catch_run error_code error_stack error
              (printed w3
                 [stdout (nl ++ "=== Decoding Light Client Update with SSZ Library ===")]))
    as (lines & Hcatch & Herr).
  exists buffer, w1, response, w2, w3, lines.
  split; [exact Hread |]. split; [exact Hparse |]. split; [exact Htype |].
  split; [| exact Herr].
  unfold main, try_catch. rewrite Htry, Hcatch, printed_printed. reflexivity.
Qed.

Lemma main_decode_error_witness :
  nth_error sample_argv 2 = Some "light_client_update.ssz"
  /\ existsSync (sample_fs frame_empty) "light_client_update.ssz" = true
  /\ readFileSync (sample_fs frame_empty) "light_client_update.ssz" = Return frame_empty
  /\ Z.of_nat (List.length frame_empty) <= Buffer.kMaxLength
  /\ (12 <= List.length frame_empty)%nat
  /\ hd_error (known_schemas sample_ssz) = Some (sample_type xe1)
  /\ deserialize (sample_type xe1)
       (list_slice frame_empty 12
          (12 + Z.to_nat (le_uint (list_slice frame_empty 0 8))))
     = Throw (Error "Invalid size 0")
  /\ exists w3 lines,
       main (sample_fs frame_empty) sample_ssz sample_bits_toString
         sample_code sample_stack sample_argv (mkWorld [] [])
       = (Return 1,
          printed w3
            (stdout (nl ++ "=== Decoding Light Client Update with SSZ Library ===")
             :: stderr "Error: Invalid size 0" :: lines)).
Proof.
  assert (Hmax : Z.of_nat (List.length frame_empty) <= Buffer.kMaxLength)
    by (vm_compute; discriminate).
  assert (Hlong : (12 <= List.length frame_empty)%nat) by (simpl; lia).
  split; [reflexivity |]. split; [reflexivity |]. split; [reflexivity |].
  split; [exact Hmax |]. split; [exact Hlong |]. split; [reflexivity |].
  split; [reflexivity |].
  destruct (main_decode_error (sample_fs frame_empty) sample_ssz
              sample_bits_toString sample_code sample_stack sample_argv
              "light_client_update.ssz" frame_empty (sample_type xe1)
              (Error "Invalid size 0") (mkWorld [] [])
              eq_refl eq_refl eq_refl Hmax Hlong eq_refl eq_refl)
    as (_ & _ & _ & _ & w3 & lines & _ & _ & _ & Hrun & _).
  exists w3, lines. exact Hrun.
Defined.
